(** * slope-aspect-map: slope engine, risk classifier, overlay sizing

    A shallow embedding of the numeric core of the repository:

    - [src/classify.py]   : [RISK_CATEGORIES], [classify_slope],
                            [get_risk_color], [slope_to_rgba]
    - [src/slope.py]      : [calculate_slope] (over [numpy.gradient])
    - [src/dem.py]        : [get_cell_size_meters]
    - [src/visualize.py]  : the downsampling block of [create_slope_map]
    - [diagnose_alignment.py] : [get_slope_at_coord] and the index-to-coordinate
                            formulas of [main]
    - [server.py]         : the slopes of [generate_map] and the port
                            search of [run_server]

    Numbers.  Python and numpy floats are IEEE binary64.  Where the code
    only compares and uses the four basic operations, it is embedded over
    Rocq's primitive binary64 floats, which compute what the program
    computes, NaN and rounding included.  Where it calls [arctan] or
    [cos] (no binary64 counterpart here), a float is idealised as a real
    number or NaN: exact arithmetic, no rounding, no overflow, no
    infinities; the statements made there are about finite inputs and say
    so.  What the idealisation hides (infinite inputs, overflow, rounding)
    is shown on a second reading of the same functions over the primitive
    floats, in which [np.arctan] and [np.cos] are variables.  *)

From Stdlib Require Import ZArith List String Bool Lia.
From Stdlib Require Import Floats QArith Qround Reals Lra.
From Stdlib Require Lqa.
Import ListNotations.

Set Implicit Arguments.

(** ** Python exceptions and results *)

Inductive exn : Type :=
| ValueError
| KeyError
| IndexError
| OverflowError
| ZeroDivisionError.

Inductive result (A : Type) : Type :=
| Ok (a : A)
| Raise (e : exn).

Arguments Ok {A} a.
Arguments Raise {A} e.

Definition bind {A B : Type} (m : result A) (k : A -> result B) : result B :=
  match m with
  | Ok a => k a
  | Raise e => Raise e
  end.

Notation "x <- m ;; k" := (bind m (fun x => k))
  (at level 61, m at next level, right associativity).

(** ** numpy arrays: a shape and a row-major buffer *)

Module Np.

Record ndarray (A : Type) : Type := mk_ndarray {
  shape : list nat;
  data : list A
}.

Arguments mk_ndarray {A} shape data.

Definition size (sh : list nat) : nat := fold_right Nat.mul 1%nat sh.

(** The buffer holds exactly the cells the shape announces. *)
Definition wf {A} (a : ndarray A) : Prop :=
  List.length (data a) = size (shape a).

(** [a.flatten()] *)
Definition flatten {A} (a : ndarray A) : list A := data a.

(** [np.array(l).reshape(sh)] *)
Definition reshape {A} (l : list A) (sh : list nat) : ndarray A :=
  mk_ndarray sh l.

(** An elementwise operation, such as [a < 25] or [np.sqrt(a)]. *)
Definition map {A B} (f : A -> B) (a : ndarray A) : ndarray B :=
  mk_ndarray (shape a) (List.map f (data a)).

(** An elementwise binary operation on two arrays of one shape. *)
Definition map2 {A B C} (f : A -> B -> C) (a : ndarray A) (b : ndarray B)
  : ndarray C :=
  mk_ndarray (shape a)
    (List.map (fun p => f (fst p) (snd p)) (combine (data a) (data b))).

(** [a[r, c]] of a 2D array with [w] columns; [d] outside the buffer. *)
Definition get2 {A} (d : A) (w : nat) (a : ndarray A) (r c : nat) : A :=
  nth (r * w + c) (data a) d.

(** The 2D array of shape [(h, w)] whose cell [(r, c)] is [f r c]. *)
Definition tabulate {A} (h w : nat) (f : nat -> nat -> A) : ndarray A :=
  mk_ndarray [h; w]
    (flat_map (fun r => List.map (f r) (seq 0 w)) (seq 0 h)).

(** [np.zeros(shape)], with [z] the zero cell. *)
Definition zeros {A} (sh : list nat) (z : A) : ndarray A :=
  mk_ndarray sh (repeat z (size sh)).

(** [a[mask] = v]: the cells where the mask holds are overwritten. *)
Definition assign_masked {A} (a : ndarray A) (mask : ndarray bool) (v : A)
  : ndarray A :=
  map2 (fun x (m : bool) => if m then v else x) a mask.

End Np.

(** ** src/classify.py *)

Module Classify.

Import Np.

(** An RGBA colour, as the 4-tuples of [RISK_CATEGORIES]. *)
Definition rgba : Type := (Z * Z * Z * Z)%type.

Record risk_info : Type := mk_info {
  info_min : Z;
  info_max : Z;
  info_color : rgba
}.

(** The module-level dict, in insertion order. *)
Definition RISK_CATEGORIES : list (string * risk_info) :=
  [ ("low"%string,       mk_info 0 25 (0, 255, 0, 150)%Z);
    ("moderate"%string,  mk_info 25 30 (255, 255, 0, 150)%Z);
    ("high"%string,      mk_info 30 45 (255, 165, 0, 150)%Z);
    ("very_high"%string, mk_info 45 60 (255, 0, 0, 150)%Z);
    ("extreme"%string,   mk_info 60 90 (128, 0, 128, 150)%Z) ].

(** [d[k]] on a dict: the first binding of [k], [KeyError] without one. *)
Fixpoint dict_get {V : Type} (d : list (string * V)) (k : string)
  : result V :=
  match d with
  | [] => Raise KeyError
  | (k', v) :: d' => if String.eqb k k' then Ok v else dict_get d' k
  end.

(** One turn of the loop body of [classify_slope]: the chain of [<]. *)
Definition classify_one (slope : float) : string :=
  if (slope <? 25)%float then "low"%string
  else if (slope <? 30)%float then "moderate"%string
  else if (slope <? 45)%float then "high"%string
  else if (slope <? 60)%float then "very_high"%string
  else "extreme"%string.

(** What [classify_slope] returns: a list for 1D input, an array else. *)
Inductive classified : Type :=
| AsList (l : list string)
| AsArray (a : ndarray string).

(** [classify_slope]: flatten, append one label per cell, reshape when
    the input had more than one axis. *)
Definition classify_slope (slopes : ndarray float) : classified :=
  let original_shape := shape slopes in
  let flat_slopes := flatten slopes in
  let categories :=
    fold_left (fun acc slope => acc ++ [classify_one slope]) flat_slopes [] in
  if (1 <? List.length original_shape)%nat
  then AsArray (reshape categories original_shape)
  else AsList categories.

(** [get_risk_color]: [RISK_CATEGORIES[category]['color']]. *)
Definition get_risk_color (category : string) : result rgba :=
  info <- dict_get RISK_CATEGORIES category ;;
  Ok (info_color info).

(** The five masks of [slope_to_rgba], at one cell. *)
Definition low_mask (s : float) : bool := (s <? 25)%float.
Definition moderate_mask (s : float) : bool :=
  (25 <=? s)%float && (s <? 30)%float.
Definition high_mask (s : float) : bool :=
  (30 <=? s)%float && (s <? 45)%float.
Definition very_high_mask (s : float) : bool :=
  (45 <=? s)%float && (s <? 60)%float.
Definition extreme_mask (s : float) : bool := (60 <=? s)%float.

(** [slope_to_rgba]: a zero image, then five masked assignments in the
    order of the source.  [height, width = slopes.shape] fails on an
    array that is not 2D. *)
Definition slope_to_rgba (slopes : ndarray float) : result (ndarray rgba) :=
  match shape slopes with
  | [height; width] =>
      let rgba0 := zeros [height; width] (0, 0, 0, 0)%Z in
      let low := Np.map low_mask slopes in
      let moderate := Np.map moderate_mask slopes in
      let high := Np.map high_mask slopes in
      let very_high := Np.map very_high_mask slopes in
      let extreme := Np.map extreme_mask slopes in
      i1 <- dict_get RISK_CATEGORIES "low" ;;
      let rgba1 := assign_masked rgba0 low (info_color i1) in
      i2 <- dict_get RISK_CATEGORIES "moderate" ;;
      let rgba2 := assign_masked rgba1 moderate (info_color i2) in
      i3 <- dict_get RISK_CATEGORIES "high" ;;
      let rgba3 := assign_masked rgba2 high (info_color i3) in
      i4 <- dict_get RISK_CATEGORIES "very_high" ;;
      let rgba4 := assign_masked rgba3 very_high (info_color i4) in
      i5 <- dict_get RISK_CATEGORIES "extreme" ;;
      let rgba5 := assign_masked rgba4 extreme (info_color i5) in
      Ok rgba5
  | _ => Raise ValueError
  end.

(** The pixel [slope_to_rgba] leaves at a cell of slope [s]. *)
Definition pixel_of (s : float) : rgba :=
  let p0 := (0, 0, 0, 0)%Z in
  let p1 := if low_mask s then (0, 255, 0, 150)%Z else p0 in
  let p2 := if moderate_mask s then (255, 255, 0, 150)%Z else p1 in
  let p3 := if high_mask s then (255, 165, 0, 150)%Z else p2 in
  let p4 := if very_high_mask s then (255, 0, 0, 150)%Z else p3 in
  if extreme_mask s then (128, 0, 128, 150)%Z else p4.

(** The five labels, in the order of the dict. *)
Definition labels : list string :=
  List.map fst RISK_CATEGORIES.

(** The masks of [slope_to_rgba] at one cell, in the order of the source. *)
Definition masks (s : float) : list bool :=
  [low_mask s; moderate_mask s; high_mask s; very_high_mask s; extreme_mask s].

(** A 1D array, as [np.array([...])]. *)
Definition vector {A : Type} (l : list A) : ndarray A :=
  mk_ndarray [List.length l] l.

(** A 2D array with one cell. *)
Definition grid1 {A : Type} (x : A) : ndarray A :=
  mk_ndarray [1%nat; 1%nat] [x].

(** The classifier gives cell [s] the label and the renderer the colour. *)
Definition labelled (s : float) (label : string) (c : rgba) : Prop :=
  classify_slope (vector [s]) = AsList [label] /\
  slope_to_rgba (grid1 s) = Ok (grid1 c).

(** The alpha channel of a pixel. *)
Definition alpha (c : rgba) : Z := snd c.

(** The place of a label in a list of labels, its length when absent. *)
Fixpoint index_of (l : list string) (x : string) : nat :=
  match l with
  | [] => 0%nat
  | y :: l' => if String.eqb x y then 0%nat else S (index_of l' x)
  end.

(** The rank of the label of a slope in the order of the dict:
    0 for low up to 4 for extreme. *)
Definition risk_rank (s : float) : nat := index_of labels (classify_one s).

(** The labels [classify_slope] returns, as a flat list. *)
Definition labels_of (r : classified) : list string :=
  match r with
  | AsList l => l
  | AsArray a => data a
  end.

End Classify.

(** ** src/slope.py *)

Module Slope.

Import Np.
Local Open Scope R_scope.

(** A float of the slope engine: a real number, or NaN (no-data).
    Arithmetic is exact; every operation with a NaN operand is NaN.
    Infinities are not part of the idealisation: a division by zero,
    which numpy answers with an infinity or NaN, is answered NaN, so
    that nothing is said of the values computed with a zero spacing. *)
Inductive rfloat : Type :=
| NaN
| Fin (x : R).

Definition lift2 (op : R -> R -> R) (a b : rfloat) : rfloat :=
  match a, b with
  | Fin x, Fin y => Fin (op x y)
  | _, _ => NaN
  end.

Definition fadd : rfloat -> rfloat -> rfloat := lift2 Rplus.
Definition fsub : rfloat -> rfloat -> rfloat := lift2 Rminus.
Definition fmul : rfloat -> rfloat -> rfloat := lift2 Rmult.
Definition fdiv (a b : rfloat) : rfloat :=
  match a, b with
  | Fin x, Fin y => if Req_dec_T y 0 then NaN else Fin (x / y)
  | _, _ => NaN
  end.

(** [x**2] *)
Definition fsquare (a : rfloat) : rfloat := fmul a a.

(** [np.sqrt]: NaN below zero. *)
Definition fsqrt (a : rfloat) : rfloat :=
  match a with
  | Fin x => if Rlt_dec x 0 then NaN else Fin (sqrt x)
  | NaN => NaN
  end.

(** [np.arctan] *)
Definition farctan (a : rfloat) : rfloat :=
  match a with
  | Fin x => Fin (atan x)
  | NaN => NaN
  end.

(** [np.degrees] *)
Definition fdegrees (a : rfloat) : rfloat :=
  match a with
  | Fin x => Fin (x * (180 / PI))
  | NaN => NaN
  end.

(** One cell of [np.gradient] along an axis of [n] samples with uniform
    spacing [d] and [edge_order=1]: central difference over [2. * d]
    inside, one-sided difference over [d] at both ends. *)
Definition diff_axis (n : nat) (line : nat -> rfloat) (d : rfloat) (i : nat)
  : rfloat :=
  if (i =? 0)%nat then
    fdiv (fsub (line 1%nat) (line 0%nat)) d
  else if (i =? n - 1)%nat then
    fdiv (fsub (line (n - 1)%nat) (line (n - 2)%nat)) d
  else
    fdiv (fsub (line (i + 1)%nat) (line (i - 1)%nat)) (fmul (Fin 2) d).

(** [np.gradient(f, d)] for a 2D array: one array per axis, rows first.
    An axis shorter than [edge_order + 1 = 2] raises [ValueError].
    Arrays of another rank are outside the signature of
    [calculate_slope], whose two-name unpacking expects two axes: they
    are answered [ValueError] here, as the unpacking does on every rank
    but one (a 1D array of exactly two cells unpacks into two numbers). *)
Definition gradient (f : ndarray rfloat) (d : rfloat)
  : result (ndarray rfloat * ndarray rfloat) :=
  match shape f with
  | [h; w] =>
      if (h <? 2)%nat then Raise ValueError else
      let out0 :=
        tabulate h w
          (fun r c => diff_axis h (fun i => get2 NaN w f i c) d r) in
      if (w <? 2)%nat then Raise ValueError else
      let out1 :=
        tabulate h w
          (fun r c => diff_axis w (fun j => get2 NaN w f r j) d c) in
      Ok (out0, out1)
  | _ => Raise ValueError
  end.

(** [calculate_slope] *)
Definition calculate_slope (elevation : ndarray rfloat) (cell_size : rfloat)
  : result (ndarray rfloat) :=
  g <- gradient elevation cell_size ;;
  let (dz_dy, dz_dx) := g in
  let gradient_magnitude :=
    Np.map fsqrt
      (map2 fadd (Np.map fsquare dz_dx) (Np.map fsquare dz_dy)) in
  let slope_radians := Np.map farctan gradient_magnitude in
  let slope_degrees := Np.map fdegrees slope_radians in
  Ok slope_degrees.

(** A float that holds a number: not NaN and, in the program, not an
    infinity either. *)
Definition finite (v : rfloat) : Prop := exists x, v = Fin x.


(** A cell is on the border of an [h] by [w] grid. *)
Definition on_border (h w r c : nat) : Prop :=
  r = 0%nat \/ r = (h - 1)%nat \/ c = 0%nat \/ c = (w - 1)%nat.

(** Two cells are neighbours along a row or a column. *)
Definition adjacent (r c i j : nat) : Prop :=
  (c = j /\ (r = S i \/ i = S r)) \/ (r = i /\ (c = S j \/ j = S c)).

(** The slope of a cell from the two components of its gradient. *)
Definition slope_of (dx dy : rfloat) : rfloat :=
  fdegrees (farctan (fsqrt (fadd (fsquare dx) (fsquare dy)))).

(** A 2D array of [h] rows and [w] columns. *)
Definition grid (h w : nat) (cells : list rfloat) : ndarray rfloat :=
  mk_ndarray [h; w] cells.

(** A plateau at 100 m with one no-data cell in the middle. *)
Definition plateau : ndarray rfloat :=
  grid 3 3 [Fin 100; Fin 100; Fin 100;
            Fin 100; NaN;     Fin 100;
            Fin 100; Fin 100; Fin 100].

(** The plane [z0 + a * d * r + b * d * c] sampled on an [h] by [w] grid:
    it rises by [a] cell sizes per row and [b] cell sizes per column. *)
Definition plane (h w : nat) (z0 a b d : R) : ndarray rfloat :=
  tabulate h w (fun r c => Fin (z0 + a * d * INR r + b * d * INR c)).

End Slope.

(** ** src/dem.py *)

Module Dem.

Local Open Scope R_scope.

(** [np.radians] *)
Definition radians (x : R) : R := x * (PI / 180).

(** [get_cell_size_meters], over the reals. *)
Definition get_cell_size_meters (resolution_degrees latitude : R) : R :=
  let meters_per_degree_lat := 111320 in
  let meters_per_degree_lon := 111320 * cos (radians latitude) in
  let cell_size_lat := resolution_degrees * meters_per_degree_lat in
  let cell_size_lon := resolution_degrees * meters_per_degree_lon in
  (cell_size_lat + cell_size_lon) / 2.

End Dem.

(** ** server.py: generate_map and the port search of run_server *)

Module Server.

Import Np Slope Dem.
Local Open Scope R_scope.

(** [DEMData] of [src/dem.py]: the elevation grid, its bounds
    [(west, south, east, north)] and its resolution in degrees. *)
Record DEMData : Type := mk_dem {
  elevation : ndarray rfloat;
  bounds : R * R * R * R;
  resolution : R
}.

(** [dem.bounds[1]] and [dem.bounds[3]] *)
Definition south (dem : DEMData) : R := snd (fst (fst (bounds dem))).
Definition north (dem : DEMData) : R := snd (bounds dem).


(** What the port search of [run_server] can end with. *)
Inductive search_error : Type :=
| OSError
| OverflowError
| NameError.

(** The port numbers a socket accepts. *)
Definition valid_port (p : Z) : bool := ((0 <=? p) && (p <=? 65535))%Z.

(** [socketserver.TCPServer(("", try_port), handler)]: the bind of a port
    outside [0 .. 65535] raises [OverflowError]; on a valid port the
    server is created or the bind fails with an [OSError], [bind_ok]
    telling which. *)
Definition TCPServer (bind_ok : Z -> bool) (try_port : Z)
  : search_error + Z :=
  if valid_port try_port then
    if bind_ok try_port then inr try_port else inl OSError
  else inl OverflowError.

(** The loop body over the ports left to try: the first port that binds
    is kept and the loop left; an [OSError] is caught and, at [last],
    raised again; an [OverflowError] is not caught.  A loop that ran out
    would leave [httpd] unbound. *)
Fixpoint try_ports (bind_ok : Z -> bool) (last : Z) (ports : list Z)
  : search_error + Z :=
  match ports with
  | [] => inl NameError
  | try_port :: rest =>
      match TCPServer bind_ok try_port with
      | inr httpd => inr httpd
      | inl OSError =>
          if (try_port =? last)%Z then inl OSError
          else try_ports bind_ok last rest
      | inl e => inl e
      end
  end.

(** [range(port, port + 10)] *)
Definition port_range (port : Z) : list Z :=
  List.map (fun i => (port + Z.of_nat i)%Z) (seq 0 10).

(** The port [run_server] serves on. *)
Definition find_port (bind_ok : Z -> bool) (port : Z) : search_error + Z :=
  try_ports bind_ok (port + 9)%Z (port_range port).

End Server.

(** ** Python arithmetic on floats and ints

    [get_slope_at_coord], the coordinate formulas of [main] and the
    downsampling block use [+], [-], [*], [/] on floats, the conversion of
    an int operand to float, and [int()].  They are written once over this
    interface and read at two instances: [binary64], what the program
    computes, and [exact], the same formulas without rounding. *)

Class Arith (F : Type) : Type := {
  (** the float of an int operand *)
  of_int : Z -> F;
  add : F -> F -> F;
  sub : F -> F -> F;
  mul : F -> F -> F;
  (** [a / b]: [ZeroDivisionError] on a zero divisor *)
  div : F -> F -> result F;
  (** [int(x)]: truncation toward zero; fails on NaN and infinities *)
  to_int : F -> result Z
}.

Module Binary64.

(** The nearest float of an int: the int itself below [2^53], as every
    dimension and index is. *)
Definition of_int (z : Z) : float :=
  SF2Prim (binary_normalize prec emax z 0 false).

Definition div (a b : float) : result float :=
  if (b =? 0)%float then Raise ZeroDivisionError else Ok (a / b)%float.

(** [int(x)] drops the fraction of the magnitude [m * 2^e]. *)
Definition to_int (x : float) : result Z :=
  match Prim2SF x with
  | S754_zero _ => Ok 0%Z
  | S754_finite s m e =>
      let magnitude := Z.shiftl (Zpos m) e in
      Ok (if s then (- magnitude)%Z else magnitude)
  | S754_infinity _ => Raise OverflowError
  | S754_nan => Raise ValueError
  end.

End Binary64.

#[export] Instance binary64 : Arith float := {
  of_int := Binary64.of_int;
  add := PrimFloat.add;
  sub := PrimFloat.sub;
  mul := PrimFloat.mul;
  div := Binary64.div;
  to_int := Binary64.to_int
}.

Module Exact.

Definition div (a b : Q) : result Q :=
  if Qeq_bool b 0 then Raise ZeroDivisionError else Ok (a / b)%Q.

Definition to_int (x : Q) : result Z :=
  Ok (Z.quot (Qnum x) (Zpos (Qden x))).

(** The integer of [int(x)]. *)
Definition trunc (x : Q) : Z := Z.quot (Qnum x) (Zpos (Qden x)).

End Exact.

#[export] Instance exact : Arith Q := {
  of_int := inject_Z;
  add := Qplus;
  sub := Qminus;
  mul := Qmult;
  div := Exact.div;
  to_int := Exact.to_int
}.

(** ** src/slope.py and src/dem.py on binary64

    The same two functions on the program's floats.  [np.gradient],
    [x**2], [+], [np.sqrt] are the IEEE operations of the primitive
    floats, [np.degrees] and [np.radians] are multiplications by
    [180 / pi] and [pi / 180]; [np.arctan] and [np.cos], which have no
    primitive counterpart, are variables. *)

Module Numpy.

Local Open Scope float_scope.

(** The double nearest to pi. *)
Definition pi : float := 0x1.921fb54442d18p+1.

(** [np.degrees] *)
Definition degrees (x : float) : float := x * (180 / pi).

(** [np.radians] *)
Definition radians (x : float) : float := x * (pi / 180).

End Numpy.

Module SlopeBinary64.

Import Np.
Local Open Scope float_scope.

(** One cell of [np.gradient] along an axis of [n] samples. *)
Definition diff_axis (n : nat) (line : nat -> float) (d : float) (i : nat)
  : float :=
  if (i =? 0)%nat then
    (line 1%nat - line 0%nat) / d
  else if (i =? n - 1)%nat then
    (line (n - 1)%nat - line (n - 2)%nat) / d
  else
    (line (i + 1)%nat - line (i - 1)%nat) / (2 * d).

(** [np.gradient(f, d)] for a 2D array. *)
Definition gradient (f : ndarray float) (d : float)
  : result (ndarray float * ndarray float) :=
  match shape f with
  | [h; w] =>
      if (h <? 2)%nat then Raise ValueError else
      let out0 :=
        tabulate h w
          (fun r c => diff_axis h (fun i => get2 nan w f i c) d r) in
      if (w <? 2)%nat then Raise ValueError else
      let out1 :=
        tabulate h w
          (fun r c => diff_axis w (fun j => get2 nan w f r j) d c) in
      Ok (out0, out1)
  | _ => Raise ValueError
  end.

Section Libm.

Variable np_arctan : float -> float.

(** [calculate_slope] *)
Definition calculate_slope (elevation : ndarray float) (cell_size : float)
  : result (ndarray float) :=
  g <- gradient elevation cell_size ;;
  let (dz_dy, dz_dx) := g in
  let gradient_magnitude :=
    Np.map PrimFloat.sqrt
      (map2 PrimFloat.add (Np.map (fun x => x * x) dz_dx)
                          (Np.map (fun x => x * x) dz_dy)) in
  let slope_radians := Np.map np_arctan gradient_magnitude in
  let slope_degrees := Np.map Numpy.degrees slope_radians in
  Ok slope_degrees.

End Libm.





End SlopeBinary64.

Module DemBinary64.

Local Open Scope float_scope.

Section Libm.

Variable np_cos : float -> float.

(** [get_cell_size_meters] *)
Definition get_cell_size_meters (resolution_degrees latitude : float)
  : float :=
  let meters_per_degree_lat := 111320 in
  let meters_per_degree_lon := 111320 * np_cos (Numpy.radians latitude) in
  let cell_size_lat := resolution_degrees * meters_per_degree_lat in
  let cell_size_lon := resolution_degrees * meters_per_degree_lon in
  (cell_size_lat + cell_size_lon) / 2.

End Libm.


End DemBinary64.

(** ** The thresholds of the dict, as floats *)

Module Table.

Import Classify.

(** An entry of [RISK_CATEGORIES] holds [s] when [min <= s < max]. *)
Definition holds (info : risk_info) (s : float) : Prop :=
  (Binary64.of_int (info_min info) <=? s)%float = true /\
  (s <? Binary64.of_int (info_max info))%float = true.

End Table.

(** ** src/visualize.py: the downsampling block of create_slope_map *)

Module Visualize.

Section Generic.

Context {F : Type} `{Arith F}.

(** The size handed to [img.resize], [(new_height, new_width)], or
    [None] when the image is left as it is. *)
Definition downsample_dims (height width : Z) : result (option (Z * Z)) :=
  let max_dimension := 1500%Z in
  if (max_dimension <? Z.max height width)%Z then
    scale <- div (of_int max_dimension) (of_int (Z.max height width)) ;;
    new_height <- to_int (mul (of_int height) scale) ;;
    new_width <- to_int (mul (of_int width) scale) ;;
    Ok (Some (new_height, new_width))
  else Ok None.

(** The centre of the map of [create_slope_map]: the one given, or the
    middle of the bounds, [((south + north) / 2, (west + east) / 2)]. *)
Definition map_center (bounds : F * F * F * F) (center : option (F * F))
  : result (F * F) :=
  let '(west, south, east, north) := bounds in
  match center with
  | None =>
      lat <- div (add south north) (of_int 2) ;;
      lon <- div (add west east) (of_int 2) ;;
      Ok (lat, lon)
  | Some c => Ok c
  end.

End Generic.

End Visualize.

(** ** diagnose_alignment.py *)

Module Diagnose.

Import Np.

Section Generic.

Context {F : Type} `{Arith F}.

(** [(west, south, east, north)] *)
Definition geo_bounds : Type := (F * F * F * F)%type.

(** [slopes[row, col]] for ints already clamped from below. *)
Definition item (slopes : ndarray F) (row col : Z) : result F :=
  match shape slopes with
  | [height; width] =>
      if ((row <? Z.of_nat height) && (col <? Z.of_nat width))%Z%bool then
        match nth_error (data slopes)
                (Z.to_nat row * width + Z.to_nat col) with
        | Some v => Ok v
        | None => Raise IndexError
        end
      else Raise IndexError
  | _ => Raise IndexError
  end.

(** The pixel index of [get_slope_at_coord], before the array is read. *)
Definition probe_index (height width : Z) (bounds : geo_bounds)
    (lat lon : F) : result (Z * Z) :=
  let '(west, south, east, north) := bounds in
  x_frac <- div (sub lon west) (sub east west) ;;
  y_frac <- div (sub north lat) (sub north south) ;;
  col <- to_int (mul x_frac (of_int width)) ;;
  row <- to_int (mul y_frac (of_int height)) ;;
  let col := Z.max 0 (Z.min (width - 1) col) in
  let row := Z.max 0 (Z.min (height - 1) row) in
  Ok (row, col).

(** [get_slope_at_coord]: [(slopes[row, col], row, col)]. *)
Definition get_slope_at_coord (slopes : ndarray F) (bounds : geo_bounds)
    (lat lon : F) : result (F * Z * Z) :=
  match shape slopes with
  | [height; width] =>
      rc <- probe_index (Z.of_nat height) (Z.of_nat width) bounds lat lon ;;
      let (row, col) := rc in
      v <- item slopes row col ;;
      Ok (v, row, col)
  | _ => Raise ValueError
  end.

(** The coordinates [main] derives from a grid index:
    [(steep_lat, steep_lon)].  The index is a numpy integer, whose division
    by a zero [width] gives an infinity or NaN where [div] raises; an array
    with an index has no zero dimension. *)
Definition index_to_coord (height width : Z) (bounds : geo_bounds)
    (steep_row steep_col : Z) : result (F * F) :=
  let '(west, south, east, north) := bounds in
  fx <- div (of_int steep_col) (of_int width) ;;
  let steep_lon := add west (mul fx (sub east west)) in
  fy <- div (of_int steep_row) (of_int height) ;;
  let steep_lat := sub north (mul fy (sub north south)) in
  Ok (steep_lat, steep_lon).

(** Index to coordinates as in [main], then [get_slope_at_coord] at these
    coordinates. *)
Definition roundtrip (slopes : ndarray F) (bounds : geo_bounds)
    (row col : Z) : result (F * Z * Z) :=
  match shape slopes with
  | [height; width] =>
      p <- index_to_coord (Z.of_nat height) (Z.of_nat width) bounds row col ;;
      let (lat, lon) := p in
      get_slope_at_coord slopes bounds lat lon
  | _ => Raise ValueError
  end.

(** A 10 by 10 grid whose cell [(r, c)] holds [10 * r + c]. *)
Definition numbered : ndarray F :=
  tabulate 10 10 (fun r c => of_int (Z.of_nat (10 * r + c))).

End Generic.

End Diagnose.

(** * Facts *)

(** ** Order of binary64 floats *)

Section FloatOrder.

Local Open Scope float_scope.

Ltac sf_cases :=
  repeat match goal with s : bool |- _ => destruct s end; simpl;
  try discriminate; try reflexivity;
  repeat match goal with
  | |- context [Z.compare ?x ?y] => destruct (Z.compare_spec x y); simpl
  | |- context [Pos.compare_cont Eq ?x ?y] =>
      change (Pos.compare_cont Eq x y) with (Pos.compare x y)
  | |- context [Pos.compare ?x ?y] => destruct (Pos.compare_spec x y); simpl
  end;
  try discriminate; try reflexivity; try lia.

Lemma SFltb_trans a b c :
  SFltb a b = true -> SFltb b c = true -> SFltb a c = true.
Proof.
  unfold SFltb.
  destruct a as [sa|sa| |sa ma ea], b as [sb|sb| |sb mb eb],
           c as [sc|sc| |sc mc ec]; simpl;
    try discriminate; try reflexivity; sf_cases.
Qed.

Lemma SFleb_not_ltb a b : SFleb a b = true -> SFltb b a = false.
Proof.
  unfold SFltb, SFleb.
  destruct a as [sa|sa| |sa ma ea], b as [sb|sb| |sb mb eb]; simpl;
    try discriminate; try reflexivity; sf_cases.
Qed.

Lemma SFnot_ltb_leb a b :
  a <> S754_nan -> b <> S754_nan -> SFltb a b = false -> SFleb b a = true.
Proof.
  unfold SFltb, SFleb.
  destruct a as [sa|sa| |sa ma ea], b as [sb|sb| |sb mb eb]; simpl;
    try congruence; intros _ _; sf_cases.
Qed.

Lemma is_nan_Prim2SF x : is_nan x = false -> Prim2SF x <> S754_nan.
Proof.
  unfold is_nan. rewrite FloatAxioms.eqb_spec. intros E N. rewrite N in E. discriminate.
Qed.

Lemma ltb_trans a b c : (a <? b) = true -> (b <? c) = true -> (a <? c) = true.
Proof. rewrite !FloatAxioms.ltb_spec. apply SFltb_trans. Qed.

Lemma leb_not_ltb a b : (a <=? b) = true -> (b <? a) = false.
Proof. rewrite FloatAxioms.leb_spec, FloatAxioms.ltb_spec. apply SFleb_not_ltb. Qed.

Lemma not_ltb_leb a b :
  is_nan a = false -> is_nan b = false -> (a <? b) = false -> (b <=? a) = true.
Proof.
  intros Ha Hb. rewrite FloatAxioms.leb_spec, FloatAxioms.ltb_spec.
  apply SFnot_ltb_leb; now apply is_nan_Prim2SF.
Qed.

(** A comparison with NaN is false. *)
Lemma nan_ltb_l a : (nan <? a) = false.
Proof. rewrite FloatAxioms.ltb_spec. reflexivity. Qed.

Lemma nan_leb_r a : (a <=? nan) = false.
Proof.
  rewrite FloatAxioms.leb_spec. unfold SFleb.
  change (Prim2SF nan) with S754_nan. now destruct (Prim2SF a).
Qed.

End FloatOrder.

(** ** The risk classifier *)

Section ClassifyFacts.

Import Np Classify.
Local Open Scope float_scope.

Lemma fold_append_map {A B : Type} (f : A -> B) (l : list A) (acc : list B) :
  fold_left (fun acc x => acc ++ [f x]) l acc = acc ++ List.map f l.
Proof.
  revert acc. induction l as [|x l IH]; intros acc; simpl.
  - now rewrite app_nil_r.
  - rewrite IH, <- app_assoc. reflexivity.
Qed.

(** The loop of [classify_slope] labels the cells one by one, in order. *)
Lemma classify_slope_labels (slopes : ndarray float) :
  classify_slope slopes =
  let categories := List.map classify_one (data slopes) in
  if (1 <? List.length (shape slopes))%nat
  then AsArray (mk_ndarray (shape slopes) categories)
  else AsList categories.
Proof.
  unfold classify_slope, flatten, reshape. now rewrite fold_append_map.
Qed.

Lemma masked_pixels (d : list float) :
  let z := (0, 0, 0, 0)%Z in
  let paint (c : rgba) :=
    fun p : rgba * bool => if snd p then c else fst p in
  List.map (paint (128, 0, 128, 150)%Z)
    (combine
      (List.map (paint (255, 0, 0, 150)%Z)
        (combine
          (List.map (paint (255, 165, 0, 150)%Z)
            (combine
              (List.map (paint (255, 255, 0, 150)%Z)
                (combine
                  (List.map (paint (0, 255, 0, 150)%Z)
                    (combine (repeat z (List.length d))
                             (List.map low_mask d)))
                  (List.map moderate_mask d)))
              (List.map high_mask d)))
          (List.map very_high_mask d)))
      (List.map extreme_mask d))
  = List.map pixel_of d.
Proof.
  induction d as [|s d IH]; simpl in *.
  - reflexivity.
  - f_equal. exact IH.
Qed.

(** [slope_to_rgba] paints every cell of a 2D array with [pixel_of]. *)
Lemma slope_to_rgba_pixels (slopes : ndarray float) (h w : nat) :
  shape slopes = [h; w] -> wf slopes ->
  slope_to_rgba slopes = Ok (Np.map pixel_of slopes).
Proof.
  intros Hs Hwf. unfold slope_to_rgba, wf in *. rewrite Hs in *.
  cbn [bind dict_get RISK_CATEGORIES String.eqb Ascii.eqb Bool.eqb info_color].
  unfold assign_masked, map2, Np.map, zeros.
  cbn [shape data]. rewrite Hs, <- Hwf.
  apply (f_equal (fun l => Ok (mk_ndarray [h; w] l))).
  apply masked_pixels.
Qed.

Lemma slope_to_rgba_grid1 (s : float) :
  slope_to_rgba (grid1 s) = Ok (grid1 (pixel_of s)).
Proof. reflexivity. Qed.

Lemma labelled_intro (s : float) (label : string) (c : rgba) :
  classify_one s = label -> pixel_of s = c -> labelled s label c.
Proof.
  intros <- <-. split.
  - rewrite classify_slope_labels. reflexivity.
  - apply slope_to_rgba_grid1.
Qed.

Lemma ltb_not_leb a b : (a <? b) = true -> (b <=? a) = false.
Proof.
  intros L. destruct (b <=? a) eqn:E; [|reflexivity].
  apply leb_not_ltb in E. congruence.
Qed.

Lemma ltb_false_below s a b :
  (a <? b) = true -> (s <? b) = false -> (s <? a) = false.
Proof.
  intros Hab L. destruct (s <? a) eqn:E; [|reflexivity].
  rewrite (ltb_trans E Hab) in L. discriminate.
Qed.

(** The thresholds are ordered; each test of the chain decides the later
    ones when it holds and the earlier ones when it fails. *)
Lemma below_25_30 s : (s <? 25) = true -> (s <? 30) = true.
Proof. intros L. exact (@ltb_trans s 25 30 L eq_refl). Qed.

Lemma below_30_45 s : (s <? 30) = true -> (s <? 45) = true.
Proof. intros L. exact (@ltb_trans s 30 45 L eq_refl). Qed.

Lemma below_45_60 s : (s <? 45) = true -> (s <? 60) = true.
Proof. intros L. exact (@ltb_trans s 45 60 L eq_refl). Qed.

Lemma above_60_45 s : (s <? 60) = false -> (s <? 45) = false.
Proof. exact (@ltb_false_below s 45 60 eq_refl). Qed.

Lemma above_45_30 s : (s <? 45) = false -> (s <? 30) = false.
Proof. exact (@ltb_false_below s 30 45 eq_refl). Qed.

Lemma above_30_25 s : (s <? 30) = false -> (s <? 25) = false.
Proof. exact (@ltb_false_below s 25 30 eq_refl). Qed.

Ltac learn H :=
  let T := type of H in
  lazymatch goal with
  | _ : T |- _ => fail
  | _ => pose proof H
  end.

(** What the tests of the chain say about the other thresholds. *)
Ltac thresholds s :=
  repeat match goal with
  | H : (s <? 25) = true |- _ => learn (below_25_30 H)
  | H : (s <? 30) = true |- _ => learn (below_30_45 H)
  | H : (s <? 45) = true |- _ => learn (below_45_60 H)
  | H : (s <? 60) = false |- _ => learn (above_60_45 H)
  | H : (s <? 45) = false |- _ => learn (above_45_30 H)
  | H : (s <? 30) = false |- _ => learn (above_30_25 H)
  | H : (?c <=? s) = true |- _ => learn (leb_not_ltb H)
  | H : (s <? ?c) = true |- _ => learn (ltb_not_leb H)
  end.

Ltac settle s :=
  thresholds s;
  unfold classify_one, pixel_of, low_mask, moderate_mask, high_mask,
    very_high_mask, extreme_mask;
  repeat match goal with
  | H : _ = true |- _ => rewrite H
  | H : _ = false |- _ => rewrite H
  end;
  simpl; try reflexivity.

Lemma low_cell s :
  (s <? 25) = true ->
  classify_one s = "low"%string /\ pixel_of s = (0, 255, 0, 150)%Z.
Proof. intros L. split; settle s. Qed.

Lemma moderate_cell s :
  (25 <=? s) = true -> (s <? 30) = true ->
  classify_one s = "moderate"%string /\ pixel_of s = (255, 255, 0, 150)%Z.
Proof. intros G L. split; settle s. Qed.

Lemma high_cell s :
  (30 <=? s) = true -> (s <? 45) = true ->
  classify_one s = "high"%string /\ pixel_of s = (255, 165, 0, 150)%Z.
Proof. intros G L. split; settle s. Qed.

Lemma very_high_cell s :
  (45 <=? s) = true -> (s <? 60) = true ->
  classify_one s = "very_high"%string /\ pixel_of s = (255, 0, 0, 150)%Z.
Proof. intros G L. split; settle s. Qed.

Lemma extreme_cell s :
  (60 <=? s) = true ->
  classify_one s = "extreme"%string /\ pixel_of s = (128, 0, 128, 150)%Z.
Proof. intros G. split; settle s. Qed.


(** C3.  The threshold chain on every float [s]: below 25 is low, from 25
    and below 30 moderate, from 30 and below 45 high, from 45 and below 60
    very_high, from 60 extreme, for the label of [classify_slope] and for
    the colour of [slope_to_rgba]; 25, 30, 45 and 60 themselves belong to
    the higher category. *)
Theorem classification_thresholds (s : float) :
  ((s <? 25) = true -> labelled s "low" (0, 255, 0, 150)%Z) /\
  ((25 <=? s) = true -> (s <? 30) = true ->
   labelled s "moderate" (255, 255, 0, 150)%Z) /\
  ((30 <=? s) = true -> (s <? 45) = true ->
   labelled s "high" (255, 165, 0, 150)%Z) /\
  ((45 <=? s) = true -> (s <? 60) = true ->
   labelled s "very_high" (255, 0, 0, 150)%Z) /\
  ((60 <=? s) = true -> labelled s "extreme" (128, 0, 128, 150)%Z) /\
  labelled 25 "moderate" (255, 255, 0, 150)%Z /\
  labelled 30 "high" (255, 165, 0, 150)%Z /\
  labelled 45 "very_high" (255, 0, 0, 150)%Z /\
  labelled 60 "extreme" (128, 0, 128, 150)%Z.
Proof.
  assert (K : forall label c,
             classify_one s = label /\ pixel_of s = c -> labelled s label c)
    by (intros label c [? ?]; now apply labelled_intro).
  split; [intros L; apply K, low_cell, L|].
  split; [intros G L; apply K, moderate_cell; assumption|].
  split; [intros G L; apply K, high_cell; assumption|].
  split; [intros G L; apply K, very_high_cell; assumption|].
  split; [intros G; apply K, extreme_cell, G|].
  repeat split.
Qed.

(** The boundary values of the repository's tests. *)
Example boundary_values :
  List.map classify_one
    [0x1.8fd70a3d70a3dp+4; 25; 0x1.dfd70a3d70a3dp+4; 30;
     0x1.67eb851eb851fp+5; 45; 0x1.dfeb851eb851fp+5; 60] =
  ["low"; "moderate"; "moderate"; "high";
   "high"; "very_high"; "very_high"; "extreme"]%string.
Proof. reflexivity. Qed.

(** Every float that is not NaN fails a test of the chain only by being
    at or above its threshold. *)
Lemma not_below_above s c :
  is_nan s = false -> is_nan c = false -> (s <? c) = false -> (c <=? s) = true.
Proof. intros Hs Hc L. now apply not_ltb_leb. Qed.

Lemma classify_one_cases s :
  (s <? 25) = true /\ classify_one s = "low"%string \/
  (s <? 25) = false /\ (s <? 30) = true /\
    classify_one s = "moderate"%string \/
  (s <? 30) = false /\ (s <? 45) = true /\ classify_one s = "high"%string \/
  (s <? 45) = false /\ (s <? 60) = true /\
    classify_one s = "very_high"%string \/
  (s <? 60) = false /\ classify_one s = "extreme"%string.
Proof.
  unfold classify_one.
  destruct (s <? 25) eqn:L25; [now left|].
  destruct (s <? 30) eqn:L30; [now right; left|].
  destruct (s <? 45) eqn:L45; [now right; right; left|].
  destruct (s <? 60) eqn:L60; [now right; right; right; left|].
  now right; right; right; right.
Qed.

(** Off NaN, the colour is the colour of the label and one mask holds. *)
Lemma pixel_of_label s :
  is_nan s = false ->
  get_risk_color (classify_one s) = Ok (pixel_of s) /\
  List.length (filter (fun m : bool => m) (masks s)) = 1%nat.
Proof.
  intros Hs.
  assert (G : forall c, is_nan c = false -> (s <? c) = false ->
                        (c <=? s) = true)
    by (intros c Hc L; now apply not_below_above).
  destruct (classify_one_cases s)
    as [[L ->]|[[L1 [L ->]]|[[L1 [L ->]]|[[L1 [L ->]]|[L1 ->]]]]];
    thresholds s;
    repeat match goal with
    | H : (s <? ?c) = false |- _ => learn (G c eq_refl H)
    end;
    unfold masks, pixel_of, low_mask, moderate_mask, high_mask,
      very_high_mask, extreme_mask;
    repeat match goal with
    | H : _ = true |- _ => rewrite H
    | H : _ = false |- _ => rewrite H
    end; split; reflexivity.
Qed.

(** C10.  [classify_slope] and [slope_to_rgba] are total off NaN: every
    such float, inside [0, 90] or not, gets exactly one of the five
    labels, below zero it is low and above 90 extreme, exactly one mask
    of [slope_to_rgba] holds and the pixel is the colour of the label. *)
Theorem classification_total (s : float) :
  is_nan s = false ->
  (exists! label, In label labels /\
                  classify_slope (vector [s]) = AsList [label]) /\
  ((s <? 0) = true -> classify_slope (vector [s]) = AsList ["low"%string]) /\
  ((90 <? s) = true ->
   classify_slope (vector [s]) = AsList ["extreme"%string]) /\
  List.length (filter (fun m : bool => m) (masks s)) = 1%nat /\
  exists label c,
    labelled s label c /\ get_risk_color label = Ok c.
Proof.
  intros Hs. destruct (@pixel_of_label s Hs) as [Hc Hm].
  assert (HL : classify_slope (vector [s]) = AsList [classify_one s])
    by (rewrite classify_slope_labels; reflexivity).
  rewrite HL. repeat apply conj.
  - exists (classify_one s). split.
    + split; [|reflexivity].
      destruct (classify_one_cases s)
        as [[_ ->]|[[_ [_ ->]]|[[_ [_ ->]]|[[_ [_ ->]]|[_ ->]]]]];
        simpl; tauto.
    + intros l [_ E]. now injection E.
  - intros L.
    pose proof (@ltb_trans s 0 25 L eq_refl) as L25.
    unfold classify_one. now rewrite L25.
  - intros L. f_equal. f_equal.
    assert (L60 : (s <? 60) = false).
    { destruct (s <? 60) eqn:E; [|reflexivity].
      pose proof (@ltb_trans 90 s 60 L E) as F. discriminate F. }
    thresholds s. unfold classify_one.
    repeat match goal with H : _ = false |- _ => rewrite H end.
    reflexivity.
  - exact Hm.
  - exists (classify_one s), (pixel_of s). split; [|exact Hc].
    now apply labelled_intro.
Qed.

Lemma classification_total_witness :
  is_nan 95 = false /\
  classify_slope (vector [95]) = AsList ["extreme"%string].
Proof.
  split; [reflexivity|].
  exact (proj1 (proj2 (proj2 (classification_total 95 eq_refl))) eq_refl).
Defined.

(** C8.  [get_risk_color] returns the fixed colour of each of the five
    labels and raises [KeyError] on every other string. *)
Theorem get_risk_color_table :
  get_risk_color "low" = Ok (0, 255, 0, 150)%Z /\
  get_risk_color "moderate" = Ok (255, 255, 0, 150)%Z /\
  get_risk_color "high" = Ok (255, 165, 0, 150)%Z /\
  get_risk_color "very_high" = Ok (255, 0, 0, 150)%Z /\
  get_risk_color "extreme" = Ok (128, 0, 128, 150)%Z /\
  (forall category : string,
     ~ In category ["low"; "moderate"; "high"; "very_high"; "extreme"]%string ->
     get_risk_color category = Raise KeyError).
Proof.
  repeat split. intros category Hn.
  unfold get_risk_color, RISK_CATEGORIES, dict_get.
  repeat match goal with
  | |- context [String.eqb category ?k] =>
      destruct (String.eqb_spec category k) as [->|_];
        [exfalso; apply Hn; simpl; tauto|]
  end.
  reflexivity.
Qed.

(** C1 (the code at a grid with no-data cells).  On the grid
    [[10, NaN], [NaN, 70]], [classify_slope] labels both NaN cells
    extreme, while [slope_to_rgba] leaves them transparent. *)
Theorem nan_cells_classified_extreme :
  let slopes := mk_ndarray [2%nat; 2%nat] [10; nan; nan; 70] in
  classify_slope slopes =
    AsArray (mk_ndarray [2%nat; 2%nat]
               ["low"; "extreme"; "extreme"; "extreme"]%string) /\
  slope_to_rgba slopes =
    Ok (mk_ndarray [2%nat; 2%nat]
          [(0, 255, 0, 150); (0, 0, 0, 0); (0, 0, 0, 0);
           (128, 0, 128, 150)]%Z).
Proof. split; reflexivity. Qed.

(** Every NaN cell of every array fares the same. *)
Lemma nan_cell (slopes : ndarray float) (h w i : nat) :
  shape slopes = [h; w] -> wf slopes ->
  nth_error (data slopes) i = Some nan ->
  classify_slope slopes =
    AsArray (mk_ndarray [h; w] (List.map classify_one (data slopes))) /\
  nth_error (List.map classify_one (data slopes)) i = Some "extreme"%string /\
  exists image,
    slope_to_rgba slopes = Ok image /\
    nth_error (data image) i = Some (0, 0, 0, 0)%Z.
Proof.
  intros Hs Hwf Hi. rewrite classify_slope_labels, Hs. simpl.
  split; [reflexivity|]. split.
  - rewrite nth_error_map, Hi. reflexivity.
  - exists (Np.map pixel_of slopes). split.
    + now apply slope_to_rgba_pixels with (h := h) (w := w).
    + simpl. rewrite nth_error_map, Hi. reflexivity.
Qed.

End ClassifyFacts.

(** ** Arrays *)

Section ArrayFacts.

Import Np.

Variable A : Type.

Lemma nth_rows (w : nat) (g : nat -> list A) (d : A) :
  (forall i, List.length (g i) = w) ->
  forall h s r c, (r < h)%nat -> (c < w)%nat ->
  nth (r * w + c) (flat_map g (seq s h)) d = nth c (g (s + r)%nat) d.
Proof.
  intros Hg. induction h as [|h IH]; intros s r c Hr Hc; [lia|].
  simpl. destruct r as [|r].
  - simpl. rewrite app_nth1 by (rewrite Hg; exact Hc).
    now rewrite Nat.add_0_r.
  - rewrite app_nth2 by (rewrite Hg; simpl; lia).
    rewrite Hg.
    replace (S r * w + c - w)%nat with (r * w + c)%nat by (simpl; lia).
    rewrite IH by lia. f_equal. f_equal. lia.
Qed.

Lemma map_nth_fix (B : Type) (f : A -> B) (l : list A) (i : nat)
    (da : A) (db : B) :
  f da = db -> nth i (List.map f l) db = f (nth i l da).
Proof. intros <-. apply map_nth. Qed.

Lemma length_rows (w : nat) (g : nat -> list A) :
  (forall i, List.length (g i) = w) ->
  forall h s, List.length (flat_map g (seq s h)) = (h * w)%nat.
Proof.
  intros Hg. induction h as [|h IH]; intros s; simpl; [reflexivity|].
  now rewrite length_app, Hg, IH.
Qed.

Lemma nth_tabulate (h w : nat) (f : nat -> nat -> A) (d : A) (r c : nat) :
  (r < h)%nat -> (c < w)%nat ->
  nth (r * w + c) (data (tabulate h w f)) d = f r c.
Proof.
  intros Hr Hc. unfold tabulate. simpl.
  rewrite nth_rows by (auto; intros; now rewrite length_map, length_seq).
  simpl. rewrite nth_indep with (d' := f r 0%nat)
    by (now rewrite length_map, length_seq).
  rewrite map_nth, seq_nth by exact Hc. reflexivity.
Qed.

Lemma length_tabulate (h w : nat) (f : nat -> nat -> A) :
  List.length (data (tabulate h w f)) = (h * w)%nat.
Proof.
  unfold tabulate. simpl. apply length_rows.
  intros. now rewrite length_map, length_seq.
Qed.

End ArrayFacts.

(** ** The slope engine *)

Section SlopeFacts.

Import Np Slope.
Local Open Scope R_scope.

Lemma lift2_nan_r op a : lift2 op a NaN = NaN.
Proof. now destruct a. Qed.

Lemma fdiv_fin (x y : R) : y <> 0 -> fdiv (Fin x) (Fin y) = Fin (x / y).
Proof.
  intros Hy. unfold fdiv. now destruct (Req_dec_T y 0).
Qed.

Lemma fsub_nan_l b : fsub NaN b = NaN.
Proof. reflexivity. Qed.

Lemma fsub_nan_r a : fsub a NaN = NaN.
Proof. apply lift2_nan_r. Qed.

Lemma slope_of_nan_l dy : slope_of NaN dy = NaN.
Proof. reflexivity. Qed.

Lemma slope_of_nan_r dx : slope_of dx NaN = NaN.
Proof.
  unfold slope_of, fsquare, fadd. cbn [fmul lift2].
  now rewrite lift2_nan_r.
Qed.

(** [calculate_slope] fails exactly as [np.gradient] does. *)
Lemma calculate_slope_small (h w : nat) (cells : list rfloat) (d : rfloat) :
  (h < 2 \/ w < 2)%nat ->
  calculate_slope (grid h w cells) d = Raise ValueError.
Proof.
  intros Hs. unfold calculate_slope, gradient, grid. cbn [shape bind].
  destruct (Nat.ltb_spec h 2); [reflexivity|].
  destruct (Nat.ltb_spec w 2); [reflexivity|lia].
Qed.

(** From 2 by 2 on it returns a grid of the same shape, each cell the
    slope of the two differences [np.gradient] takes there. *)
Lemma calculate_slope_cells (h w : nat) (cells : list rfloat) (d : rfloat) :
  (2 <= h)%nat -> (2 <= w)%nat ->
  exists slopes,
    calculate_slope (grid h w cells) d = Ok slopes /\
    shape slopes = [h; w] /\
    List.length (data slopes) = (h * w)%nat /\
    forall r c, (r < h)%nat -> (c < w)%nat ->
      get2 NaN w slopes r c =
      slope_of
        (diff_axis w (fun j => get2 NaN w (grid h w cells) r j) d c)
        (diff_axis h (fun i => get2 NaN w (grid h w cells) i c) d r).
Proof.
  intros Hh Hw. unfold calculate_slope, gradient. cbn [grid shape bind].
  destruct (Nat.ltb_spec h 2); [lia|].
  destruct (Nat.ltb_spec w 2); [lia|].
  eexists. split; [reflexivity|]. split; [reflexivity|]. split.
  - cbn [Np.map map2 data]. rewrite !length_map, length_combine, !length_map.
    rewrite !length_tabulate. lia.
  - intros r c Hr Hc. unfold get2 at 1. cbn [Np.map map2 data].
    rewrite (map_nth_fix fdegrees _ _ NaN) by reflexivity.
    rewrite (map_nth_fix farctan _ _ NaN) by reflexivity.
    rewrite (map_nth_fix fsqrt _ _ NaN) by reflexivity.
    rewrite (map_nth_fix _ _ _ (NaN, NaN)) by reflexivity.
    rewrite combine_nth by (now rewrite !length_map, !length_tabulate).
    cbn [fst snd].
    rewrite !(map_nth_fix fsquare _ _ NaN) by reflexivity.
    rewrite !nth_tabulate by assumption. reflexivity.
Qed.

(** C5.  [calculate_slope] raises the shape error of [np.gradient]
    ([ValueError]) on every grid with fewer than 2 rows or fewer than 2
    columns, and returns a grid from 2 by 2 on. *)
Theorem calculate_slope_shape_error
    (h w : nat) (cells : list rfloat) (d : rfloat) :
  ((h < 2 \/ w < 2)%nat ->
   calculate_slope (grid h w cells) d = Raise ValueError) /\
  ((2 <= h)%nat -> (2 <= w)%nat ->
   exists slopes, calculate_slope (grid h w cells) d = Ok slopes).
Proof.
  split.
  - apply calculate_slope_small.
  - intros Hh Hw.
    destruct (calculate_slope_cells cells d Hh Hw) as [slopes [E _]].
    now exists slopes.
Qed.

(** A difference of [np.gradient] is NaN as soon as a sample it reads is:
    a sample next to [i], or [i] itself at an end of the axis. *)
Lemma diff_axis_nan (n : nat) (line : nat -> rfloat) (d : rfloat) (i k : nat) :
  (2 <= n)%nat -> (i < n)%nat -> (k < n)%nat -> line k = NaN ->
  (k = S i \/ i = S k \/ (k = i /\ (i = 0 \/ i = n - 1)))%nat ->
  diff_axis n line d i = NaN.
Proof.
  intros Hn Hi Hk Hnan Hrel. unfold diff_axis.
  destruct (Nat.eqb_spec i 0) as [E0|N0].
  - assert (Hk' : (k = 1 \/ k = 0)%nat) by lia.
    destruct Hk' as [-> | ->]; rewrite Hnan;
      [reflexivity | now rewrite fsub_nan_r].
  - destruct (Nat.eqb_spec i (n - 1)) as [E1|N1].
    + assert (Hk' : (k = n - 1 \/ k = n - 2)%nat) by lia.
      destruct Hk' as [<- | <-]; rewrite Hnan;
        [reflexivity | now rewrite fsub_nan_r].
    + assert (Hk' : (k = i + 1 \/ k = i - 1)%nat) by lia.
      destruct Hk' as [<- | <-]; rewrite Hnan;
        [reflexivity | now rewrite fsub_nan_r].
Qed.

(** X23.  A NaN cell of the elevation grid makes the slope NaN at each of
    its row and column neighbours, and at the cell itself when it lies on
    the border of the grid, whatever the cell size. *)
Theorem nan_reaches_stencil
    (h w : nat) (cells : list rfloat) (d : rfloat) (i j : nat) :
  (2 <= h)%nat -> (2 <= w)%nat -> (i < h)%nat -> (j < w)%nat ->
  get2 NaN w (grid h w cells) i j = NaN ->
  exists slopes,
    calculate_slope (grid h w cells) d = Ok slopes /\
    (forall r c, (r < h)%nat -> (c < w)%nat -> adjacent r c i j ->
       get2 NaN w slopes r c = NaN) /\
    (on_border h w i j -> get2 NaN w slopes i j = NaN).
Proof.
  intros Hh Hw Hi Hj Hnan.
  destruct (calculate_slope_cells cells d Hh Hw) as [slopes [E [_ [_ Hc]]]].
  exists slopes. split; [exact E|]. split.
  - intros r c Hr Hcw [[-> Hv] | [-> Hv]]; rewrite Hc by assumption.
    + rewrite (@diff_axis_nan h _ d r i) by (auto; lia).
      apply slope_of_nan_r.
    + rewrite (@diff_axis_nan w _ d c j) by (auto; lia).
      apply slope_of_nan_l.
  - intros Hb. rewrite Hc by assumption.
    destruct Hb as [Hb | [Hb | [Hb | Hb]]].
    + rewrite (@diff_axis_nan h _ d i i) by (auto; lia).
      apply slope_of_nan_r.
    + rewrite (@diff_axis_nan h _ d i i) by (auto; lia).
      apply slope_of_nan_r.
    + rewrite (@diff_axis_nan w _ d j j) by (auto; lia).
      apply slope_of_nan_l.
    + rewrite (@diff_axis_nan w _ d j j) by (auto; lia).
      apply slope_of_nan_l.
Qed.

Lemma nan_reaches_stencil_witness :
  exists slopes,
    calculate_slope plateau (Fin 30) = Ok slopes /\
    get2 NaN 3 slopes 0 1 = NaN.
Proof.
  destruct (@nan_reaches_stencil 3 3
              [Fin 100; Fin 100; Fin 100; Fin 100; NaN; Fin 100;
               Fin 100; Fin 100; Fin 100] (Fin 30) 1 1)
    as [slopes [E [Hadj _]]]; try lia; try reflexivity.
  exists slopes. split; [exact E|].
  apply Hadj; try lia. left. split; [reflexivity|]. right. reflexivity.
Defined.

(** C2 (the code at a grid with an isolated no-data cell).  On a 3 by 3
    plateau at 100 m whose middle cell is no-data (NaN), with cells of
    30 m, [calculate_slope] returns the slope 0 at the middle cell and not
    NaN: the central differences of [np.gradient] read the four
    neighbours of the cell and not the cell. *)
Lemma interior_nan_cell_gets_a_slope :
  get2 NaN 3 plateau 1 1 = NaN /\
  exists slopes,
    calculate_slope plateau (Fin 30) = Ok slopes /\
    get2 NaN 3 slopes 1 1 = Fin 0.
Proof.
  split; [reflexivity|].
  destruct (@calculate_slope_cells 3 3 (data plateau) (Fin 30))
    as [slopes [E [_ [_ Hc]]]]; try lia.
  exists slopes. split; [exact E|].
  rewrite Hc by lia.
  unfold slope_of, diff_axis, get2, plateau, grid.
  cbn [Nat.eqb Nat.sub Nat.add Nat.mul nth data fsub fmul lift2].
  rewrite !fdiv_fin by lra.
  cbn [fadd fsquare fmul lift2 fsqrt].
  destruct (Rlt_dec _ 0) as [Hneg|_]; [exfalso; nra|].
  cbn [farctan fdegrees]. f_equal.
  replace ((100 - 100) / (2 * 30) * ((100 - 100) / (2 * 30)) +
           (100 - 100) / (2 * 30) * ((100 - 100) / (2 * 30))) with 0
    by (unfold Rdiv; ring).
  rewrite sqrt_0, atan_0. ring.
Qed.


Lemma slope_of_fin (x y : R) :
  slope_of (Fin x) (Fin y) = Fin (atan (sqrt (x * x + y * y)) * (180 / PI)).
Proof.
  unfold slope_of, fsquare, fadd, fmul, lift2, fsqrt.
  destruct (Rlt_dec (x * x + y * y) 0) as [Hneg|_]; [exfalso; nra|].
  reflexivity.
Qed.


Lemma finite_not_nan (v : rfloat) : finite v <-> v <> NaN.
Proof.
  split.
  - intros [x ->]. discriminate.
  - intros Hv. destruct v as [|x]; [congruence | now exists x].
Qed.




End SlopeFacts.

(** ** The slope engine on binary64 *)

Section SlopeBinary64Facts.

Import Np.
Local Open Scope float_scope.


End SlopeBinary64Facts.

(** ** The cell-size resolver *)

Section DemFacts.

Import Dem.
Local Open Scope R_scope.


Lemma cell_size_linear (r lat : R) :
  get_cell_size_meters r lat = r * (111320 * (1 + cos (radians lat)) / 2).
Proof. unfold get_cell_size_meters. field. Qed.



End DemFacts.

(** ** The cell-size resolver on binary64 *)

Section DemBinary64Facts.

Local Open Scope float_scope.


End DemBinary64Facts.

(** ** Exact arithmetic *)

Section ExactFacts.

Local Open Scope Q_scope.

Lemma exact_to_int (q : Q) : 0 <= q -> Exact.to_int q = Ok (Qfloor q).
Proof.
  destruct q as [n d]. unfold Qle, Exact.to_int, Qfloor. simpl.
  intros Hn. rewrite Z.quot_div_nonneg by lia. reflexivity.
Qed.


Lemma exact_div (a b : Q) : ~ b == 0 -> Exact.div a b = Ok (a / b).
Proof.
  intros Hb. unfold Exact.div.
  destruct (Qeq_bool b 0) eqn:E; [|reflexivity].
  now apply Qeq_bool_eq in E.
Qed.

Lemma inject_Z_nonzero (z : Z) : (z <> 0)%Z -> ~ inject_Z z == 0.
Proof.
  intros Hz E. apply Hz. unfold Qeq in E. simpl in E. lia.
Qed.

End ExactFacts.

(** ** The overlay renderer: downsampling *)

Section VisualizeFacts.

Import Visualize.

(** In either arithmetic the image is resized exactly when its larger
    dimension exceeds 1500. *)
Lemma downsample_iff (F : Type) (AF : Arith F) (height width : Z) :
  downsample_dims (F := F) height width = Ok None <->
  (Z.max height width <= 1500)%Z.
Proof.
  unfold downsample_dims.
  destruct (Z.ltb_spec 1500 (Z.max height width)) as [Hlt|Hle].
  - split; [|lia].
    destruct (div _ _) as [scale|e]; cbn [bind]; [|discriminate].
    destruct (to_int _) as [nh|e]; cbn [bind]; [|discriminate].
    destruct (to_int _) as [nw|e]; cbn [bind]; discriminate.
  - split; [intros _; exact Hle | reflexivity].
Qed.

Lemma exact_scaled (n m : Z) :
  (0 <= n)%Z -> (0 < m)%Z ->
  Exact.to_int (inject_Z n * (inject_Z 1500 / inject_Z m))%Q
  = Ok (n * 1500 / m)%Z.
Proof.
  intros Hn Hm. rewrite exact_to_int.
  - f_equal. rewrite Zdiv_Qdiv. apply Qfloor_comp.
    rewrite inject_Z_mult. field. apply inject_Z_nonzero. lia.
  - apply Qmult_le_0_compat.
    + change 0%Q with (inject_Z 0). now rewrite <- Zle_Qle.
    + apply Qle_shift_div_l.
      * change 0%Q with (inject_Z 0). now rewrite <- Zlt_Qlt.
      * rewrite Qmult_0_l. change 0%Q with (inject_Z 0).
        rewrite <- Zle_Qle. lia.
Qed.




(** A DEM-sized image, 2400 by 3240, becomes 1111 by 1500: the ratio moves
    in the fifth decimal, [1111 * 3240 = 3599640] against
    [2400 * 1500 = 3600000]. *)
Example downsample_2400_3240 :
  downsample_dims (F := float) 2400 3240 = Ok (Some (1111, 1500)%Z) /\
  (1111 * 3240 <> 2400 * 1500)%Z.
Proof. split; [reflexivity | lia]. Qed.

End VisualizeFacts.

(** ** The alignment probe *)

Section DiagnoseFacts.

Import Diagnose.
Local Open Scope Q_scope.





(** The same on the bounds of the Scottish Highlands DEM,
    [(-5.5, 56.0, -2.8, 58.0)]: column 1 is probed back as column 0. *)
Example roundtrip_binary64_highlands :
  roundtrip (numbered (F := float))
    (-0x1.6p+2, 0x1.cp+5, -0x1.6666666666666p+1, 0x1.dp+5)%float 1 1
  = Ok (10%float, 1, 0)%Z.
Proof. reflexivity. Qed.

End DiagnoseFacts.

(** * Further facts *)

(** ** More on the order of binary64 floats *)

Section FloatOrderMore.

Local Open Scope float_scope.

Lemma SFleb_ltb_trans a b c :
  SFleb a b = true -> SFltb b c = true -> SFltb a c = true.
Proof.
  unfold SFltb, SFleb.
  destruct a as [sa|sa| |sa ma ea], b as [sb|sb| |sb mb eb],
           c as [sc|sc| |sc mc ec]; simpl;
    try discriminate; try reflexivity;
    repeat match goal with s : bool |- _ => destruct s end; simpl;
    try discriminate; try reflexivity;
    repeat match goal with
    | |- context [Z.compare ?x ?y] => destruct (Z.compare_spec x y); simpl
    | |- context [Pos.compare_cont Eq ?x ?y] =>
        change (Pos.compare_cont Eq x y) with (Pos.compare x y)
    | |- context [Pos.compare ?x ?y] => destruct (Pos.compare_spec x y); simpl
    end;
    try discriminate; try reflexivity; try lia.
Qed.

Lemma leb_ltb_trans a b c :
  (a <=? b) = true -> (b <? c) = true -> (a <? c) = true.
Proof.
  rewrite FloatAxioms.leb_spec, !FloatAxioms.ltb_spec.
  apply SFleb_ltb_trans.
Qed.

Lemma SFeqb_refl x : x <> S754_nan -> SFeqb x x = true.
Proof.
  unfold SFeqb.
  destruct x as [s|s| |s m e]; simpl; try congruence; intros _.
  - now destruct s.
  - destruct s; rewrite Z.compare_refl;
      change (Pos.compare_cont Eq m m) with (Pos.compare m m);
      now rewrite Pos.compare_refl.
Qed.

Lemma is_nan_true x : is_nan x = true -> Prim2SF x = S754_nan.
Proof.
  unfold is_nan. rewrite FloatAxioms.eqb_spec. intros E.
  destruct (Prim2SF x) as [s|s| |s m e] eqn:P; try reflexivity;
    rewrite SFeqb_refl in E by discriminate; discriminate.
Qed.

(** Every comparison with a NaN is false. *)
Lemma nan_below x c : is_nan x = true -> (x <? c) = false.
Proof.
  intros E. rewrite FloatAxioms.ltb_spec, (is_nan_true _ E). reflexivity.
Qed.

Lemma nan_above x c : is_nan x = true -> (c <=? x) = false.
Proof.
  intros E. rewrite FloatAxioms.leb_spec, (is_nan_true _ E).
  unfold SFleb. now destruct (Prim2SF c).
Qed.

End FloatOrderMore.

(** ** More on the risk classifier *)

Section ClassifyMore.

Import Np Classify Table.
Local Open Scope float_scope.

Lemma classify_one_label s : In (classify_one s) labels.
Proof.
  destruct (classify_one_cases s)
    as [[_ ->]|[[_ [_ ->]]|[[_ [_ ->]]|[[_ [_ ->]]|[_ ->]]]]];
    simpl; tauto.
Qed.

Lemma labels_of_classify (slopes : ndarray float) :
  labels_of (classify_slope slopes) = List.map classify_one (data slopes).
Proof.
  rewrite classify_slope_labels. cbv zeta.
  now destruct (1 <? List.length (shape slopes))%nat.
Qed.

(** X1.  [classify_slope] returns one label per cell, in the order of the
    cells, each one of the five labels, whatever the cell holds; the
    labels come as an array of the shape of the input when it has two
    axes or more, and as a list otherwise. *)
Theorem classify_slope_one_label_per_cell (slopes : ndarray float) :
  let categories := labels_of (classify_slope slopes) in
  List.length categories = List.length (data slopes) /\
  Forall (fun label => In label labels) categories /\
  (forall i s, nth_error (data slopes) i = Some s ->
               nth_error categories i = Some (classify_one s)) /\
  match classify_slope slopes with
  | AsArray a =>
      shape a = shape slopes /\ (2 <= List.length (shape slopes))%nat
  | AsList _ => (List.length (shape slopes) <= 1)%nat
  end.
Proof.
  cbv zeta. rewrite labels_of_classify, classify_slope_labels. cbv zeta.
  repeat apply conj.
  - apply length_map.
  - apply Forall_forall. intros label Hin.
    apply in_map_iff in Hin. destruct Hin as [s [<- _]].
    apply classify_one_label.
  - intros i s Hi. now rewrite nth_error_map, Hi.
  - destruct (Nat.ltb_spec 1 (List.length (shape slopes))).
    + split; [reflexivity | lia].
    + lia.
Qed.

Lemma pixel_of_nan s : is_nan s = true -> pixel_of s = (0, 0, 0, 0)%Z.
Proof.
  intros E.
  unfold pixel_of, low_mask, moderate_mask, high_mask, very_high_mask,
    extreme_mask.
  now rewrite !(nan_below _ _ E), !(nan_above _ _ E).
Qed.

Lemma pixel_of_alpha s : is_nan s = false -> alpha (pixel_of s) = 150%Z.
Proof.
  intros E. destruct (@pixel_of_label s E) as [Hc _].
  destruct (classify_one_cases s)
    as [[_ L]|[[_ [_ L]]|[[_ [_ L]]|[[_ [_ L]]|[_ L]]]]];
    rewrite L in Hc; injection Hc as <-; reflexivity.
Qed.

(** X2.  On every 2D array [slope_to_rgba] returns an image of the same
    shape whose pixel, at each cell that is not NaN, is the colour
    [get_risk_color] gives to the label [classify_slope] gives the cell. *)
Theorem slope_to_rgba_follows_labels (slopes : ndarray float) (h w : nat) :
  shape slopes = [h; w] -> wf slopes ->
  exists image,
    slope_to_rgba slopes = Ok image /\
    shape image = [h; w] /\ wf image /\
    forall i s, nth_error (data slopes) i = Some s -> is_nan s = false ->
      exists label c,
        nth_error (labels_of (classify_slope slopes)) i = Some label /\
        get_risk_color label = Ok c /\
        nth_error (data image) i = Some c.
Proof.
  intros Hs Hwf. exists (Np.map pixel_of slopes).
  split; [now apply slope_to_rgba_pixels with (h := h) (w := w)|].
  split; [exact Hs|]. split.
  - unfold wf in *. cbn [Np.map shape data]. now rewrite length_map.
  - intros i s Hi Hn. exists (classify_one s), (pixel_of s).
    split; [|split].
    + now rewrite labels_of_classify, nth_error_map, Hi.
    + now apply pixel_of_label.
    + cbn [Np.map data]. now rewrite nth_error_map, Hi.
Qed.

Lemma slope_to_rgba_follows_labels_witness :
  exists image,
    slope_to_rgba (mk_ndarray [1%nat; 2%nat] [27; 50]) = Ok image /\
    nth_error (data image) 1 = Some (255, 0, 0, 150)%Z.
Proof.
  destruct (@slope_to_rgba_follows_labels
              (mk_ndarray [1%nat; 2%nat] [27; 50]) 1 2 eq_refl eq_refl)
    as [image [E [_ [_ Hpix]]]].
  exists image. split; [exact E|].
  destruct (Hpix 1%nat 50 eq_refl eq_refl) as [label [c [Hl [Hc Hi]]]].
  injection Hl as <-. injection Hc as <-. exact Hi.
Defined.

(** X3.  In the image of [slope_to_rgba] a pixel is fully transparent
    (alpha 0, and all of it zero) exactly where the cell is NaN; every
    other pixel has alpha 150. *)
Theorem slope_to_rgba_transparent_iff_nan
    (slopes : ndarray float) (h w : nat) :
  shape slopes = [h; w] -> wf slopes ->
  exists image,
    slope_to_rgba slopes = Ok image /\
    forall i s, nth_error (data slopes) i = Some s ->
      exists c,
        nth_error (data image) i = Some c /\
        (is_nan s = true -> c = (0, 0, 0, 0)%Z) /\
        (is_nan s = false -> alpha c = 150%Z) /\
        (alpha c = 0%Z <-> is_nan s = true).
Proof.
  intros Hs Hwf. exists (Np.map pixel_of slopes).
  split; [now apply slope_to_rgba_pixels with (h := h) (w := w)|].
  intros i s Hi. exists (pixel_of s). split.
  - cbn [Np.map data]. now rewrite nth_error_map, Hi.
  - split; [apply pixel_of_nan|]. split; [apply pixel_of_alpha|].
    destruct (is_nan s) eqn:E.
    + rewrite (pixel_of_nan _ E). now split.
    + rewrite (pixel_of_alpha _ E). split; [discriminate|discriminate].
Qed.

Lemma slope_to_rgba_transparent_iff_nan_witness :
  exists image,
    slope_to_rgba (mk_ndarray [1%nat; 2%nat] [nan; 50]) = Ok image /\
    nth_error (data image) 0 = Some (0, 0, 0, 0)%Z.
Proof.
  destruct (@slope_to_rgba_transparent_iff_nan
              (mk_ndarray [1%nat; 2%nat] [nan; 50]) 1 2 eq_refl eq_refl)
    as [image [E Hpix]].
  exists image. split; [exact E|].
  destruct (Hpix 0%nat nan eq_refl) as [c [Hi [Hn _]]].
  now rewrite <- (Hn eq_refl).
Defined.

Lemma leb_not_nan c s : (c <=? s) = true -> is_nan s = false.
Proof.
  intros L. destruct (is_nan s) eqn:E; [|reflexivity].
  rewrite (nan_above _ c E) in L. discriminate.
Qed.

Ltac know H :=
  let T := type of H in
  lazymatch goal with
  | _ : T |- _ => fail
  | _ => pose proof H
  end.

Ltac order_facts s :=
  repeat match goal with
  | H : (s <? 25) = true |- _ => know (below_25_30 H)
  | H : (s <? 30) = true |- _ => know (below_30_45 H)
  | H : (s <? 45) = true |- _ => know (below_45_60 H)
  | H : (s <? 60) = false |- _ => know (above_60_45 H)
  | H : (s <? 45) = false |- _ => know (above_45_30 H)
  | H : (s <? 30) = false |- _ => know (above_30_25 H)
  | H : (?c <=? s) = true |- _ => know (leb_not_ltb H)
  | H : (s <? ?c) = true |- _ => know (ltb_not_leb H)
  end.

(** The int thresholds of the dict, as the floats they are compared as. *)
Ltac as_floats :=
  repeat match goal with
  | H : context [Binary64.of_int ?z] |- _ =>
      let v := eval vm_compute in (Binary64.of_int z) in
      change (Binary64.of_int z) with v in H
  end.

(** X4.  The [min] and [max] of [RISK_CATEGORIES] are the thresholds of
    the code: every slope from 0 and below 90 lies in the interval
    [min <= s < max] of exactly one entry of the dict, and that entry
    carries the label [classify_slope] returns and the colour
    [slope_to_rgba] paints. *)
Theorem table_matches_thresholds (s : float) :
  (0 <=? s) = true -> (s <? 90) = true ->
  exists label info,
    In (label, info) RISK_CATEGORIES /\ holds info s /\
    labelled s label (info_color info) /\
    forall label' info',
      In (label', info') RISK_CATEGORIES -> holds info' s ->
      (label', info') = (label, info).
Proof.
  intros L0 L90. pose proof (leb_not_nan L0) as Hn.
  assert (G : forall c, is_nan c = false -> (s <? c) = false ->
                        (c <=? s) = true)
    by (intros c Hc L; now apply not_ltb_leb).
  unfold holds.
  destruct (classify_one_cases s)
    as [[L Hl]|[[L1 [L Hl]]|[[L1 [L Hl]]|[[L1 [L Hl]]|[L1 Hl]]]]];
    order_facts s;
    repeat match goal with
    | H : (s <? ?c) = false |- _ => know (G c eq_refl H)
    end.
  - exists "low"%string, (mk_info 0 25 (0, 255, 0, 150)%Z).
    split; [simpl; tauto|]. split; [split; assumption|].
    split; [apply labelled_intro; [exact Hl | apply (low_cell L)]|].
    intros label' info' Hin [Hlo Hhi].
    simpl in Hin.
    destruct Hin as [E|[E|[E|[E|[E|[]]]]]]; injection E as <- <-;
      cbn [info_min info_max] in Hlo, Hhi; as_floats;
      first [reflexivity | congruence].
  - exists "moderate"%string, (mk_info 25 30 (255, 255, 0, 150)%Z).
    split; [simpl; tauto|]. split; [split; assumption|].
    split; [apply labelled_intro;
            [exact Hl | apply moderate_cell; assumption]|].
    intros label' info' Hin [Hlo Hhi].
    simpl in Hin.
    destruct Hin as [E|[E|[E|[E|[E|[]]]]]]; injection E as <- <-;
      cbn [info_min info_max] in Hlo, Hhi; as_floats;
      first [reflexivity | congruence].
  - exists "high"%string, (mk_info 30 45 (255, 165, 0, 150)%Z).
    split; [simpl; tauto|]. split; [split; assumption|].
    split; [apply labelled_intro;
            [exact Hl | apply high_cell; assumption]|].
    intros label' info' Hin [Hlo Hhi].
    simpl in Hin.
    destruct Hin as [E|[E|[E|[E|[E|[]]]]]]; injection E as <- <-;
      cbn [info_min info_max] in Hlo, Hhi; as_floats;
      first [reflexivity | congruence].
  - exists "very_high"%string, (mk_info 45 60 (255, 0, 0, 150)%Z).
    split; [simpl; tauto|]. split; [split; assumption|].
    split; [apply labelled_intro;
            [exact Hl | apply very_high_cell; assumption]|].
    intros label' info' Hin [Hlo Hhi].
    simpl in Hin.
    destruct Hin as [E|[E|[E|[E|[E|[]]]]]]; injection E as <- <-;
      cbn [info_min info_max] in Hlo, Hhi; as_floats;
      first [reflexivity | congruence].
  - exists "extreme"%string, (mk_info 60 90 (128, 0, 128, 150)%Z).
    split; [simpl; tauto|]. split; [split; assumption|].
    split; [apply labelled_intro;
            [exact Hl | apply extreme_cell; assumption]|].
    intros label' info' Hin [Hlo Hhi].
    simpl in Hin.
    destruct Hin as [E|[E|[E|[E|[E|[]]]]]]; injection E as <- <-;
      cbn [info_min info_max] in Hlo, Hhi; as_floats;
      first [reflexivity | congruence].
Qed.

Lemma table_matches_thresholds_witness :
  exists label info,
    In (label, info) RISK_CATEGORIES /\ holds info 37 /\
    labelled 37 label (info_color info).
Proof.
  destruct (@table_matches_thresholds 37 eq_refl eq_refl)
    as [label [info [Hin [Hh [Hl _]]]]].
  now exists label, info.
Defined.

(** X5.  The risk never goes down as the slope goes up: for [s1 <= s2]
    the label of [s1] comes no later than the label of [s2] in the order
    low, moderate, high, very_high, extreme. *)
Theorem risk_rank_monotone (s1 s2 : float) :
  (s1 <=? s2) = true -> (risk_rank s1 <= risk_rank s2)%nat.
Proof.
  intros Hle.
  assert (T : forall c, (s2 <? c) = true -> (s1 <? c) = true)
    by (intros c; apply (leb_ltb_trans Hle)).
  unfold risk_rank.
  destruct (classify_one_cases s2)
    as [[L2 ->]|[[K2 [L2 ->]]|[[K2 [L2 ->]]|[[K2 [L2 ->]]|[K2 ->]]]]];
    order_facts s2;
    repeat match goal with
    | H : (s2 <? ?c) = true |- _ => know (T c H)
    end;
    destruct (classify_one_cases s1)
      as [[L1 ->]|[[K1 [L1 ->]]|[[K1 [L1 ->]]|[[K1 [L1 ->]]|[K1 ->]]]]];
    first [congruence | cbn; lia].
Qed.

Lemma risk_rank_monotone_witness : (risk_rank 28 <= risk_rank 47)%nat.
Proof. apply risk_rank_monotone. reflexivity. Defined.

End ClassifyMore.

(** ** More on arrays *)

Section ArrayMore.

Import Np.

Variable A : Type.

Lemma tabulate_ext (h w : nat) (f g : nat -> nat -> A) :
  (forall r c, (r < h)%nat -> (c < w)%nat -> f r c = g r c) ->
  tabulate h w f = tabulate h w g.
Proof.
  intros Hfg. unfold tabulate. f_equal.
  assert (Hrows : forall l, (forall r, In r l -> (r < h)%nat) ->
            flat_map (fun r => List.map (f r) (seq 0 w)) l
            = flat_map (fun r => List.map (g r) (seq 0 w)) l).
  { induction l as [|r l IH]; intros Hl; simpl; [reflexivity|].
    rewrite IH by (intros; apply Hl; now right). f_equal.
    apply map_ext_in. intros c Hc. apply in_seq in Hc.
    apply Hfg; [apply Hl; now left | lia]. }
  apply Hrows. intros r Hr. apply in_seq in Hr. lia.
Qed.

(** An index into [h] rows of [w] cells is a row and a column. *)
Lemma index_row_col (h w i : nat) :
  (i < h * w)%nat ->
  (i / w < h)%nat /\ (i mod w < w)%nat /\ i = (i / w * w + i mod w)%nat.
Proof.
  intros Hi. assert (Hw : (w <> 0)%nat) by nia.
  split; [apply Nat.Div0.div_lt_upper_bound; lia|].
  split; [now apply Nat.mod_upper_bound|].
  rewrite (Nat.div_mod_eq i w) at 1. lia.
Qed.

(** A 2D array is the table of its cells. *)
Lemma tabulate_get2 (h w : nat) (cells : list A) (d : A) :
  List.length cells = (h * w)%nat ->
  mk_ndarray [h; w] cells
  = tabulate h w (fun r c => get2 d w (mk_ndarray [h; w] cells) r c).
Proof.
  intros Hl.
  set (F := fun r c => get2 d w (mk_ndarray [h; w] cells) r c).
  assert (Hd : cells = data (tabulate h w F)).
  { apply nth_ext with (d := d) (d' := d).
    - rewrite Hl. symmetry. apply length_tabulate.
    - intros i Hi. rewrite Hl in Hi.
      destruct (@index_row_col h w i Hi) as [Hr [Hc E]].
      replace (nth i (data (tabulate h w F)) d)
        with (nth (i / w * w + i mod w) (data (tabulate h w F)) d)
        by (now rewrite <- E).
      rewrite nth_tabulate by assumption.
      unfold F, get2. cbn [data]. now rewrite <- E. }
  unfold tabulate in *. cbn [data] in Hd. now f_equal.
Qed.

End ArrayMore.

(** ** More on the slope engine *)

Section SlopeMore.

Import Np Slope.
Local Open Scope R_scope.

(** The slopes, cell by cell: the slope of the column difference and the
    row difference at the cell. *)
Lemma calculate_slope_table (h w : nat) (cells : list rfloat) (d : rfloat) :
  (2 <= h)%nat -> (2 <= w)%nat ->
  calculate_slope (grid h w cells) d =
  Ok (tabulate h w (fun r c =>
        slope_of
          (diff_axis w (fun j => get2 NaN w (grid h w cells) r j) d c)
          (diff_axis h (fun i => get2 NaN w (grid h w cells) i c) d r))).
Proof.
  intros Hh Hw.
  destruct (calculate_slope_cells cells d Hh Hw)
    as [[sh dat] [E [Hs [Hl Hc]]]].
  rewrite E. f_equal. cbn [shape data] in *. subst sh.
  rewrite (@tabulate_get2 _ h w dat NaN Hl).
  apply tabulate_ext. intros r c Hr Hcw. now apply Hc.
Qed.

Lemma get2_map (f : rfloat -> rfloat) (w : nat) (e : ndarray rfloat)
    (r c : nat) :
  f NaN = NaN -> get2 NaN w (Np.map f e) r c = f (get2 NaN w e r c).
Proof. intros Hf. unfold get2, Np.map. cbn [data]. now apply map_nth_fix. Qed.

(** Two grids of one shape whose differences give the same slope cell by
    cell have the same slopes. *)
Lemma calculate_slope_ext (e1 e2 : ndarray rfloat) (d1 d2 : rfloat) :
  shape e1 = shape e2 ->
  (forall h w r c, shape e1 = [h; w] ->
     slope_of (diff_axis w (fun j => get2 NaN w e1 r j) d1 c)
              (diff_axis h (fun i => get2 NaN w e1 i c) d1 r)
     = slope_of (diff_axis w (fun j => get2 NaN w e2 r j) d2 c)
                (diff_axis h (fun i => get2 NaN w e2 i c) d2 r)) ->
  calculate_slope e1 d1 = calculate_slope e2 d2.
Proof.
  intros Hs Hd. destruct e1 as [sh1 c1], e2 as [sh2 c2].
  cbn [shape] in Hs. subst sh2.
  destruct sh1 as [|h [|w [|x sh]]]; try reflexivity.
  destruct (Nat.lt_ge_cases h 2) as [Hh|Hh];
    [change (mk_ndarray [h; w] c1) with (grid h w c1);
     change (mk_ndarray [h; w] c2) with (grid h w c2);
     rewrite !calculate_slope_small by lia; reflexivity|].
  destruct (Nat.lt_ge_cases w 2) as [Hw|Hw];
    [change (mk_ndarray [h; w] c1) with (grid h w c1);
     change (mk_ndarray [h; w] c2) with (grid h w c2);
     rewrite !calculate_slope_small by lia; reflexivity|].
  change (mk_ndarray [h; w] c1) with (grid h w c1) in *.
  change (mk_ndarray [h; w] c2) with (grid h w c2) in *.
  rewrite !calculate_slope_table by assumption. f_equal.
  apply tabulate_ext. intros r c Hr Hc.
  apply (Hd h w r c eq_refl).
Qed.

Lemma diff_axis_ext (n : nat) (line1 line2 : nat -> rfloat) (d : rfloat)
    (i : nat) :
  (forall k, line1 k = line2 k) ->
  diff_axis n line1 d i = diff_axis n line2 d i.
Proof. intros E. unfold diff_axis. now rewrite !E. Qed.






Lemma fdiv_mirror (x y d : rfloat) :
  fdiv (fsub (fmul (Fin (-1)) x) (fmul (Fin (-1)) y)) d
  = fmul (Fin (-1)) (fdiv (fsub x y) d).
Proof.
  destruct x as [|x], y as [|y], d as [|d]; try reflexivity.
  cbn [fsub fmul lift2 fdiv].
  destruct (Req_dec_T d 0) as [E|N]; [reflexivity|].
  cbn [fmul lift2]. f_equal. now field.
Qed.

Lemma diff_axis_mirror (n : nat) (line : nat -> rfloat) (d : rfloat)
    (i : nat) :
  diff_axis n (fun j => fmul (Fin (-1)) (line j)) d i
  = fmul (Fin (-1)) (diff_axis n line d i).
Proof.
  unfold diff_axis.
  destruct (i =? 0)%nat; [|destruct (i =? n - 1)%nat]; apply fdiv_mirror.
Qed.

Lemma slope_of_mirror (x y : rfloat) :
  slope_of (fmul (Fin (-1)) x) (fmul (Fin (-1)) y) = slope_of x y.
Proof.
  destruct x as [|x], y as [|y]; try reflexivity.
  unfold slope_of, fsquare. cbn [fmul lift2 fadd].
  replace (-1 * x * (-1 * x) + -1 * y * (-1 * y)) with (x * x + y * y)
    by ring.
  reflexivity.
Qed.

(** X22.  The slope does not tell a rise from a fall: turning the terrain
    upside down (every elevation negated) leaves the result of
    [calculate_slope] unchanged. *)
Theorem calculate_slope_mirror (elevation : ndarray rfloat)
    (cell_size : rfloat) :
  calculate_slope (Np.map (fmul (Fin (-1))) elevation) cell_size
  = calculate_slope elevation cell_size.
Proof.
  apply calculate_slope_ext; [reflexivity|].
  intros h w r c _.
  rewrite <- (slope_of_mirror
                (diff_axis w (fun j => get2 NaN w elevation r j) cell_size c)
                (diff_axis h (fun i => get2 NaN w elevation i c) cell_size r)).
  f_equal.
  - transitivity
      (diff_axis w (fun j => fmul (Fin (-1)) (get2 NaN w elevation r j))
         cell_size c);
      [apply diff_axis_ext; intros j; now apply get2_map
      | apply diff_axis_mirror].
  - transitivity
      (diff_axis h (fun i => fmul (Fin (-1)) (get2 NaN w elevation i c))
         cell_size r);
      [apply diff_axis_ext; intros i; now apply get2_map
      | apply diff_axis_mirror].
Qed.

(** On samples of a line of slope [q] per cell size, every difference of
    [np.gradient], central or one-sided, is [q]. *)
Lemma diff_axis_linear (n : nat) (line : nat -> rfloat) (d p q : R)
    (i : nat) :
  d <> 0 -> (2 <= n)%nat -> (i < n)%nat ->
  (forall k, (k < n)%nat -> line k = Fin (p + q * d * INR k)) ->
  diff_axis n line (Fin d) i = Fin q.
Proof.
  intros Hd Hn Hi Hline. unfold diff_axis.
  destruct (Nat.eqb_spec i 0) as [E0|N0];
    [|destruct (Nat.eqb_spec i (n - 1)) as [E1|N1]].
  - rewrite !Hline by lia. cbn [fsub fmul lift2].
    rewrite fdiv_fin by assumption. f_equal. simpl INR. now field.
  - destruct n as [|[|m]]; try lia.
    replace (S (S m) - 1)%nat with (S m) by lia.
    replace (S (S m) - 2)%nat with m by lia.
    rewrite !Hline by lia. cbn [fsub fmul lift2].
    rewrite fdiv_fin by assumption. f_equal. rewrite S_INR. now field.
  - destruct i as [|j]; [lia|].
    replace (S j + 1)%nat with (S (S j)) by lia.
    replace (S j - 1)%nat with j by lia.
    rewrite !Hline by lia. cbn [fsub fmul lift2].
    rewrite fdiv_fin by lra. f_equal. rewrite !S_INR. now field.
Qed.

Lemma plane_cell_slope (h w : nat) (z0 a b d : R) (r c : nat) :
  d <> 0 -> (2 <= h)%nat -> (2 <= w)%nat -> (r < h)%nat -> (c < w)%nat ->
  slope_of
    (diff_axis w
       (fun j => get2 NaN w (grid h w (data (plane h w z0 a b d))) r j)
       (Fin d) c)
    (diff_axis h
       (fun i => get2 NaN w (grid h w (data (plane h w z0 a b d))) i c)
       (Fin d) r)
  = Fin (atan (sqrt (b * b + a * a)) * (180 / PI)).
Proof.
  intros Hd Hh Hw Hr Hc. rewrite <- slope_of_fin. f_equal.
  - apply diff_axis_linear with (p := z0 + a * d * INR r); auto.
    intros k Hk. unfold get2, grid, plane. cbn [data].
    now rewrite nth_tabulate.
  - apply diff_axis_linear with (p := z0 + b * d * INR c); auto.
    intros k Hk. unfold get2, grid, plane. cbn [data].
    rewrite nth_tabulate by assumption. f_equal. ring.
Qed.

(** X8.  On a planar grid that rises by [a] cell sizes per row and [b]
    cell sizes per column, [calculate_slope] gives the angle of the
    plane, [degrees(atan(sqrt(b^2 + a^2)))], at every cell, the border
    cells included. *)
Theorem calculate_slope_plane (h w : nat) (z0 a b d : R) :
  d <> 0 -> (2 <= h)%nat -> (2 <= w)%nat ->
  calculate_slope (plane h w z0 a b d) (Fin d)
  = Ok (tabulate h w
          (fun _ _ => Fin (atan (sqrt (b * b + a * a)) * (180 / PI)))).
Proof.
  intros Hd Hh Hw.
  change (plane h w z0 a b d) with (grid h w (data (plane h w z0 a b d))).
  rewrite calculate_slope_table by assumption. f_equal.
  apply tabulate_ext. intros r c Hr Hc.
  now apply plane_cell_slope.
Qed.

Lemma calculate_slope_plane_witness :
  calculate_slope (plane 10 10 0 0 2 30) (Fin 30)
  = Ok (tabulate 10 10
          (fun _ _ => Fin (atan (sqrt (2 * 2 + 0 * 0)) * (180 / PI)))).
Proof. apply calculate_slope_plane; [lra | lia | lia]. Defined.

(** X9.  A flat grid has slope 0 at every cell, and a grid that rises by
    one cell size per column has slope 45 degrees at every cell. *)
Theorem calculate_slope_flat_and_diagonal (h w : nat) (z0 d : R) :
  d <> 0 -> (2 <= h)%nat -> (2 <= w)%nat ->
  calculate_slope (plane h w z0 0 0 d) (Fin d)
    = Ok (tabulate h w (fun _ _ => Fin 0)) /\
  calculate_slope (plane h w z0 0 1 d) (Fin d)
    = Ok (tabulate h w (fun _ _ => Fin 45)).
Proof.
  intros Hd Hh Hw. pose proof PI_RGT_0 as Hpi. split.
  - change (plane h w z0 0 0 d)
      with (grid h w (data (plane h w z0 0 0 d))).
    rewrite calculate_slope_table by assumption. f_equal.
    apply tabulate_ext. intros r c Hr Hc.
    rewrite plane_cell_slope by assumption. f_equal.
    replace (0 * 0 + 0 * 0) with 0 by ring.
    rewrite sqrt_0, atan_0. ring.
  - change (plane h w z0 0 1 d)
      with (grid h w (data (plane h w z0 0 1 d))).
    rewrite calculate_slope_table by assumption. f_equal.
    apply tabulate_ext. intros r c Hr Hc.
    rewrite plane_cell_slope by assumption. f_equal.
    replace (1 * 1 + 0 * 0) with 1 by ring.
    rewrite sqrt_1, atan_1. field. lra.
Qed.

Lemma calculate_slope_flat_and_diagonal_witness :
  calculate_slope (plane 10 10 100 0 0 30) (Fin 30)
    = Ok (tabulate 10 10 (fun _ _ => Fin 0)) /\
  calculate_slope (plane 10 10 100 0 1 30) (Fin 30)
    = Ok (tabulate 10 10 (fun _ _ => Fin 45)).
Proof. apply calculate_slope_flat_and_diagonal; [lra | lia | lia]. Defined.






End SlopeMore.

(** ** The pipeline of server.py *)

Section ServerFacts.

Import Np Slope Dem Server.
Local Open Scope R_scope.




Lemma try_ports_from (bind_ok : Z -> bool) (port : Z) (n a : nat) :
  (a + n = 10)%nat ->
  match try_ports bind_ok (port + 9)
          (List.map (fun i => (port + Z.of_nat i)%Z) (seq a n)) with
  | inr p =>
      (port + Z.of_nat a <= p <= port + 9)%Z /\
      valid_port p = true /\ bind_ok p = true /\
      forall q, (port + Z.of_nat a <= q < p)%Z ->
        valid_port q = true /\ bind_ok q = false
  | inl OSError =>
      forall q, (port + Z.of_nat a <= q <= port + 9)%Z ->
        valid_port q = true /\ bind_ok q = false
  | inl OverflowError =>
      exists p,
        (port + Z.of_nat a <= p <= port + 9)%Z /\ valid_port p = false /\
        forall q, (port + Z.of_nat a <= q < p)%Z ->
          valid_port q = true /\ bind_ok q = false
  | inl NameError => n = 0%nat
  end.
Proof.
  revert a. induction n as [|n IH]; intros a Ha; [reflexivity|].
  cbn [seq List.map try_ports]. unfold TCPServer.
  destruct (valid_port (port + Z.of_nat a)%Z) eqn:V.
  - destruct (bind_ok (port + Z.of_nat a)%Z) eqn:B.
    + split; [lia|]. split; [exact V|]. split; [exact B|].
      intros q Hq. lia.
    + destruct (Z.eqb_spec (port + Z.of_nat a) (port + 9)) as [E|N].
      * intros q Hq. replace q with (port + Z.of_nat a)%Z by lia.
        now split.
      * specialize (IH (S a) ltac:(lia)).
        destruct (try_ports bind_ok (port + 9)
                    (List.map (fun i => (port + Z.of_nat i)%Z) (seq (S a) n)))
          as [[| |]|p].
        -- intros q Hq.
           destruct (Z.eq_dec q (port + Z.of_nat a)) as [->|Hne];
             [now split | apply IH; lia].
        -- destruct IH as [p [Hp [Hv Hbefore]]].
           exists p. split; [lia|]. split; [exact Hv|]. intros q Hq.
           destruct (Z.eq_dec q (port + Z.of_nat a)) as [->|Hne];
             [now split | apply Hbefore; lia].
        -- lia.
        -- destruct IH as [Hp [Hv [Hb Hbefore]]].
           split; [lia|]. split; [exact Hv|]. split; [exact Hb|].
           intros q Hq.
           destruct (Z.eq_dec q (port + Z.of_nat a)) as [->|Hne];
             [now split | apply Hbefore; lia].
  - exists (port + Z.of_nat a)%Z. split; [lia|]. split; [exact V|].
    intros q Hq. lia.
Qed.

(** X12.  The port search of [run_server] ends on the first of the ten
    ports [port .. port + 9] on which the server can be created, every
    port before it being a valid port number that could not be bound.  It
    raises [OSError] only when all ten are valid port numbers and none
    can be bound, and it lets the [OverflowError] of the bind escape when
    it comes to a port outside [0 .. 65535] before a free one.  The loop
    never runs out with [httpd] unbound. *)
Theorem find_port_first_free (bind_ok : Z -> bool) (port : Z) :
  match find_port bind_ok port with
  | inr p =>
      (port <= p <= port + 9)%Z /\
      valid_port p = true /\ bind_ok p = true /\
      forall q, (port <= q < p)%Z ->
        valid_port q = true /\ bind_ok q = false
  | inl OSError =>
      forall q, (port <= q <= port + 9)%Z ->
        valid_port q = true /\ bind_ok q = false
  | inl OverflowError =>
      exists p,
        (port <= p <= port + 9)%Z /\ valid_port p = false /\
        forall q, (port <= q < p)%Z ->
          valid_port q = true /\ bind_ok q = false
  | inl NameError => False
  end.
Proof.
  pose proof (@try_ports_from bind_ok port 10 0 eq_refl) as H.
  unfold find_port, port_range.
  destruct (try_ports bind_ok (port + 9)
              (List.map (fun i => (port + Z.of_nat i)%Z) (seq 0 10)))
    as [[| |]|p].
  - intros q Hq. apply H. lia.
  - destruct H as [p [Hp [Hv Hbefore]]].
    exists p. split; [lia|]. split; [exact Hv|].
    intros q Hq. apply Hbefore. lia.
  - discriminate H.
  - destruct H as [Hp [Hv [Hb Hbefore]]].
    split; [lia|]. split; [exact Hv|]. split; [exact Hb|].
    intros q Hq. apply Hbefore. lia.
Qed.

(** With the ports 65530 to 65535 taken, [--port 65530] ends in the
    [OverflowError] of port 65536, and with 8000 to 8002 taken
    [--port 8000] serves on 8003. *)
Example find_port_examples :
  find_port (fun p => (65535 <? p)%Z) 65530 = inl OverflowError /\
  find_port (fun p => (8002 <? p)%Z) 8000 = inr 8003%Z /\
  find_port (fun _ => false) 8000 = inl OSError.
Proof. repeat split. Qed.

End ServerFacts.

(** ** More on the cell-size resolver *)

Section DemMore.

Import Dem.
Local Open Scope R_scope.



(** X14.  The cell size is the same north and south of the equator, and
    for a resolution that is not negative it never grows as the latitude
    moves from the equator to the pole. *)
Theorem cell_size_latitude :
  (forall r lat, get_cell_size_meters r (- lat) = get_cell_size_meters r lat)
  /\
  (forall r lat1 lat2, 0 <= r -> 0 <= lat1 -> lat1 <= lat2 -> lat2 <= 90 ->
     get_cell_size_meters r lat2 <= get_cell_size_meters r lat1).
Proof.
  pose proof PI_RGT_0 as Hpi. split.
  - intros r lat. unfold get_cell_size_meters, radians.
    replace (- lat * (PI / 180)) with (- (lat * (PI / 180))) by ring.
    now rewrite cos_neg.
  - intros r lat1 lat2 Hr H1 H12 H2. rewrite !cell_size_linear.
    assert (Hk : 0 < PI / 180) by (apply Rdiv_lt_0_compat; lra).
    assert (Hcos : cos (radians lat2) <= cos (radians lat1)).
    { destruct H12 as [H12 | ->]; [|lra]. left. unfold radians.
      assert (E90 : 90 * (PI / 180) = PI / 2) by field.
      assert (B1 : 0 <= lat1 * (PI / 180)) by nra.
      assert (B2 : lat2 * (PI / 180) <= 90 * (PI / 180)) by nra.
      assert (B3 : lat1 * (PI / 180) < lat2 * (PI / 180)) by nra.
      apply cos_decreasing_1; lra. }
    nra.
Qed.

End DemMore.

(** ** More on the overlay renderer *)

Section VisualizeMore.

Import Visualize.

Lemma downsample_exact (height width : Z) :
  (0 <= height)%Z -> (0 <= width)%Z ->
  (1500 < Z.max height width)%Z ->
  downsample_dims (F := Q) height width
  = Ok (Some (height * 1500 / Z.max height width,
              width * 1500 / Z.max height width)%Z).
Proof.
  intros Hh Hw Hm. unfold downsample_dims.
  destruct (Z.ltb_spec 1500 (Z.max height width)) as [_|]; [|lia].
  cbn [div of_int mul to_int exact].
  rewrite exact_div by (apply inject_Z_nonzero; lia). cbn [bind].
  rewrite !exact_scaled by lia. reflexivity.
Qed.

(** X15.  In exact arithmetic a downsampled image is never larger than
    the original in either dimension, fits in 1500 by 1500, and is left
    as it is by a second pass. *)
Theorem downsample_shrinks_once (height width : Z) :
  (0 <= height)%Z -> (0 <= width)%Z ->
  (1500 < Z.max height width)%Z ->
  exists new_height new_width,
    downsample_dims (F := Q) height width
      = Ok (Some (new_height, new_width)) /\
    (0 <= new_height <= Z.min height 1500)%Z /\
    (0 <= new_width <= Z.min width 1500)%Z /\
    downsample_dims (F := Q) new_height new_width = Ok None.
Proof.
  intros Hh Hw Hm.
  exists (height * 1500 / Z.max height width)%Z,
         (width * 1500 / Z.max height width)%Z.
  assert (Hpos : (0 < Z.max height width)%Z) by lia.
  assert (B1 : (0 <= height * 1500 / Z.max height width)%Z)
    by (apply Z.div_pos; lia).
  assert (B2 : (0 <= width * 1500 / Z.max height width)%Z)
    by (apply Z.div_pos; lia).
  assert (B3 : (height * 1500 / Z.max height width <= height)%Z)
    by (apply Z.div_le_upper_bound; nia).
  assert (B4 : (width * 1500 / Z.max height width <= width)%Z)
    by (apply Z.div_le_upper_bound; nia).
  assert (B5 : (height * 1500 / Z.max height width <= 1500)%Z)
    by (apply Z.div_le_upper_bound; nia).
  assert (B6 : (width * 1500 / Z.max height width <= 1500)%Z)
    by (apply Z.div_le_upper_bound; nia).
  split; [now apply downsample_exact|].
  split; [lia|]. split; [lia|].
  apply downsample_iff. lia.
Qed.

Lemma downsample_shrinks_once_witness :
  exists new_height new_width,
    downsample_dims (F := Q) 2400 3240
      = Ok (Some (new_height, new_width)) /\
    (0 <= new_height <= Z.min 2400 1500)%Z /\
    (0 <= new_width <= Z.min 3240 1500)%Z /\
    downsample_dims (F := Q) new_height new_width = Ok None.
Proof. apply downsample_shrinks_once; [lia | lia | reflexivity]. Defined.

(** X16.  A dimension that is less than a 1500th of the other one is
    scaled down to zero pixels (exact arithmetic, image sides below
    [2^31]): such an image is handed to [resize] with an empty side. *)
Theorem downsample_collapses (height width : Z) :
  (0 <= height < 2 ^ 31)%Z -> (0 <= width < 2 ^ 31)%Z ->
  (1500 < Z.max height width)%Z ->
  exists new_height new_width,
    downsample_dims (F := Q) height width
      = Ok (Some (new_height, new_width)) /\
    ((height * 1500 < width)%Z -> new_height = 0%Z) /\
    ((width * 1500 < height)%Z -> new_width = 0%Z).
Proof.
  intros Hh Hw Hm.
  exists (height * 1500 / Z.max height width)%Z,
         (width * 1500 / Z.max height width)%Z.
  split; [apply downsample_exact; lia|].
  split; intros Hlt; apply Z.div_small; lia.
Qed.

Lemma downsample_collapses_witness :
  exists new_height new_width,
    downsample_dims (F := Q) 3000 1 = Ok (Some (new_height, new_width)) /\
    ((3000 * 1500 < 1)%Z -> new_height = 0%Z) /\
    ((1 * 1500 < 3000)%Z -> new_width = 0%Z).
Proof. apply downsample_collapses; [lia | lia | reflexivity]. Defined.

(** The same image in binary64: a width of zero pixels. *)
Example downsample_3000_by_1 :
  downsample_dims (F := float) 3000 1 = Ok (Some (1500, 0)%Z).
Proof. reflexivity. Qed.

(** X17.  In exact arithmetic the default centre of the map lies inside
    the bounds of the overlay. *)
Theorem map_center_inside (west south east north : Q) :
  (west <= east)%Q -> (south <= north)%Q ->
  exists lat lon,
    map_center (F := Q) (west, south, east, north) None = Ok (lat, lon) /\
    (south <= lat <= north)%Q /\ (west <= lon <= east)%Q.
Proof.
  intros Hwe Hsn. unfold map_center.
  cbn [div of_int add exact].
  rewrite !exact_div by discriminate. cbn [bind].
  eexists. eexists. split; [reflexivity|].
  change (inject_Z 2) with (2 # 1)%Q.
  split; split;
    (apply Qle_shift_div_l || apply Qle_shift_div_r);
    try reflexivity; Lqa.lra.
Qed.

Lemma map_center_inside_witness :
  exists lat lon,
    map_center (F := Q) (- (11 # 2), 56, - (14 # 5), 58)%Q None
      = Ok (lat, lon) /\
    (56 <= lat <= 58)%Q /\ (- (11 # 2) <= lon <= - (14 # 5))%Q.
Proof.
  apply map_center_inside; discriminate.
Defined.

End VisualizeMore.

(** ** More on the alignment probe *)

Section DiagnoseMore.

Import Diagnose.

(** The clamped index of the probe is a valid index of a grid with a row
    and a column. *)
Lemma clamp_in_range (n x : Z) :
  (1 <= n)%Z -> (0 <= Z.max 0 (Z.min (n - 1) x) < n)%Z.
Proof. lia. Qed.

Section AnyArithmetic.

Context {F : Type} {AF : Arith F}.

Lemma probe_index_clamped (height width : Z) (bounds : geo_bounds)
    (lat lon : F) (row col : Z) :
  probe_index height width bounds lat lon = Ok (row, col) ->
  exists r c,
    row = Z.max 0 (Z.min (height - 1) r) /\
    col = Z.max 0 (Z.min (width - 1) c).
Proof.
  unfold probe_index. destruct bounds as [[[west south] east] north].
  destruct (div _ _) as [x_frac|e]; cbn [bind]; [|discriminate].
  destruct (div _ _) as [y_frac|e]; cbn [bind]; [|discriminate].
  destruct (to_int _) as [c|e]; cbn [bind]; [|discriminate].
  destruct (to_int _) as [r|e]; cbn [bind]; [|discriminate].
  intros E. injection E as <- <-. now exists r, c.
Qed.

Lemma item_found (slopes : Np.ndarray F) (h w : nat) (row col : Z) :
  Np.shape slopes = [h; w] -> Np.wf slopes ->
  (0 <= row < Z.of_nat h)%Z -> (0 <= col < Z.of_nat w)%Z ->
  exists v,
    item slopes row col = Ok v /\
    nth_error (Np.data slopes) (Z.to_nat row * w + Z.to_nat col) = Some v.
Proof.
  intros Hs Hwf Hrow Hcol. unfold item, Np.wf in *. rewrite Hs in *.
  cbn [Np.size fold_right] in Hwf.
  destruct (Z.ltb_spec row (Z.of_nat h)); [|lia].
  destruct (Z.ltb_spec col (Z.of_nat w)); [|lia].
  cbn [andb].
  destruct (nth_error (Np.data slopes) (Z.to_nat row * w + Z.to_nat col))
    as [v|] eqn:E.
  - now exists v.
  - apply nth_error_None in E. nia.
Qed.

Lemma get_slope_at_coord_reads (slopes : Np.ndarray F) (h w : nat)
    (bounds : geo_bounds) (lat lon : F) (row col : Z) :
  Np.shape slopes = [h; w] -> Np.wf slopes ->
  (1 <= h)%nat -> (1 <= w)%nat ->
  probe_index (Z.of_nat h) (Z.of_nat w) bounds lat lon = Ok (row, col) ->
  exists v,
    get_slope_at_coord slopes bounds lat lon = Ok (v, row, col) /\
    nth_error (Np.data slopes) (Z.to_nat row * w + Z.to_nat col) = Some v.
Proof.
  intros Hs Hwf Hh Hw P. unfold get_slope_at_coord. rewrite Hs, P.
  cbn [bind].
  destruct (probe_index_clamped _ _ _ _ _ P) as [r0 [c0 [Er Ec]]].
  destruct (@item_found slopes h w row col Hs Hwf) as [v [E Hv]];
    [lia | lia |].
  exists v. rewrite E. now split.
Qed.

(** X18.  In binary64 as in exact arithmetic, whatever the coordinates
    and the bounds: when [get_slope_at_coord] returns, the row and the
    column it returns are valid indices of the grid and the value is the
    cell at that row and column; and on a grid with at least one cell,
    reading the grid never fails once the index is computed. *)
Theorem get_slope_at_coord_in_range
    (slopes : Np.ndarray F) (h w : nat) (bounds : geo_bounds) (lat lon : F) :
  Np.shape slopes = [h; w] -> Np.wf slopes ->
  (forall v row col,
     get_slope_at_coord slopes bounds lat lon = Ok (v, row, col) ->
     (0 <= row < Z.of_nat h)%Z /\ (0 <= col < Z.of_nat w)%Z /\
     nth_error (Np.data slopes) (Z.to_nat row * w + Z.to_nat col) = Some v)
  /\
  ((1 <= h)%nat -> (1 <= w)%nat ->
   forall e, get_slope_at_coord slopes bounds lat lon = Raise e ->
             probe_index (Z.of_nat h) (Z.of_nat w) bounds lat lon = Raise e).
Proof.
  intros Hs Hwf. split.
  - intros v row col. unfold get_slope_at_coord. rewrite Hs.
    destruct (probe_index _ _ _ _ _) as [[r c]|e] eqn:P; cbn [bind];
      [|discriminate].
    destruct (probe_index_clamped _ _ _ _ _ P) as [r0 [c0 [Er Ec]]].
    unfold item. rewrite Hs.
    destruct (Z.ltb_spec r (Z.of_nat h)); cbn [andb bind];
      [|discriminate].
    destruct (Z.ltb_spec c (Z.of_nat w)); cbn [andb bind];
      [|discriminate].
    destruct (nth_error (Np.data slopes) (Z.to_nat r * w + Z.to_nat c))
      as [x|] eqn:E; cbn [bind]; [|discriminate].
    intros Hok. injection Hok as <- <- <-.
    repeat split; try lia. exact E.
  - intros Hh Hw e.
    destruct (probe_index (Z.of_nat h) (Z.of_nat w) bounds lat lon)
      as [[r c]|e'] eqn:P.
    + destruct (@get_slope_at_coord_reads slopes h w bounds lat lon r c
                  Hs Hwf Hh Hw P) as [v [-> _]].
      discriminate.
    + unfold get_slope_at_coord. rewrite Hs, P. cbn [bind].
      intros E. now injection E as <-.
Qed.

End AnyArithmetic.

Lemma get_slope_at_coord_in_range_witness :
  (0 <= 7 < Z.of_nat 10)%Z /\ (0 <= 2 < Z.of_nat 10)%Z /\
  nth_error (Np.data (numbered (F := float))) 72 = Some 72%float.
Proof.
  exact (proj1 (@get_slope_at_coord_in_range float binary64 numbered 10 10
                  (0, 0, 1, 1)%float 0.25%float 0.25%float eq_refl eq_refl)
               72%float 7%Z 2%Z eq_refl).
Defined.

Local Open Scope Q_scope.

Lemma trunc_floor (q : Q) : 0 <= q -> Exact.trunc q = Qfloor q.
Proof.
  destruct q as [n d]. unfold Qle, Exact.trunc, Qfloor. simpl.
  intros Hn. apply Z.quot_div_nonneg; lia.
Qed.

Lemma trunc_nonpos (q : Q) : q <= 0 -> (Exact.trunc q <= 0)%Z.
Proof.
  destruct q as [n d]. unfold Qle, Exact.trunc. simpl. intros Hn.
  assert (H : (0 <= - n / Zpos d)%Z) by (apply Z.div_pos; lia).
  rewrite <- (Z.opp_involutive n), Z.quot_opp_l by lia.
  rewrite Z.quot_div_nonneg by lia. lia.
Qed.

(** The probe in exact arithmetic, on bounds that are not degenerate. *)
Lemma probe_exact (height width : Z) (west south east north lat lon : Q) :
  ~ east - west == 0 -> ~ north - south == 0 ->
  probe_index (F := Q) height width (west, south, east, north) lat lon
  = Ok (Z.max 0 (Z.min (height - 1)
          (Exact.trunc ((north - lat) / (north - south) * inject_Z height))),
        Z.max 0 (Z.min (width - 1)
          (Exact.trunc ((lon - west) / (east - west) * inject_Z width)))).
Proof.
  intros Hx Hy. unfold probe_index.
  cbn [div of_int sub mul to_int exact].
  rewrite (exact_div _ Hx). cbn [bind].
  rewrite (exact_div _ Hy). cbn [bind]. reflexivity.
Qed.







(** X20.  In exact arithmetic, on bounds with [west < east] and
    [south < north] and a grid with at least one cell,
    [get_slope_at_coord] returns for every point, and a point outside the
    bounds is given the nearest edge: column 0 west of the bounds, the
    last column east of them, row 0 north of them, the last row south. *)
Theorem probe_clamps_outside
    (slopes : Np.ndarray Q) (h w : nat) (west south east north lat lon : Q) :
  Np.shape slopes = [h; w] -> Np.wf slopes ->
  (1 <= h)%nat -> (1 <= w)%nat ->
  west < east -> south < north ->
  exists v row col,
    get_slope_at_coord slopes (west, south, east, north) lat lon
      = Ok (v, row, col) /\
    (lon <= west -> col = 0%Z) /\
    (east <= lon -> col = (Z.of_nat w - 1)%Z) /\
    (north <= lat -> row = 0%Z) /\
    (lat <= south -> row = (Z.of_nat h - 1)%Z).
Proof.
  intros Hs Hwf Hh Hw Hwe Hsn.
  assert (Dx : 0 < east - west) by Lqa.lra.
  assert (Dy : 0 < north - south) by Lqa.lra.
  assert (Nx : ~ east - west == 0) by (intros E; Lqa.lra).
  assert (Ny : ~ north - south == 0) by (intros E; Lqa.lra).
  assert (HW : 0 <= inject_Z (Z.of_nat w))
    by (change 0 with (inject_Z 0); rewrite <- Zle_Qle; lia).
  assert (HH : 0 <= inject_Z (Z.of_nat h))
    by (change 0 with (inject_Z 0); rewrite <- Zle_Qle; lia).
  pose proof (probe_exact (Z.of_nat h) (Z.of_nat w) lat lon Nx Ny) as P.
  destruct (@get_slope_at_coord_reads Q exact slopes h w
              (west, south, east, north) lat lon _ _ Hs Hwf Hh Hw P)
    as [v [E _]].
  do 3 eexists. split; [exact E|].
  assert (Low : forall a d n, 0 < d -> 0 <= inject_Z n -> a <= 0 ->
            (Exact.trunc (a / d * inject_Z n) <= 0)%Z).
  { intros a d n Hd Hn Ha. apply trunc_nonpos.
    rewrite <- (Qmult_0_l (inject_Z n)).
    apply Qmult_le_compat_r; [|exact Hn].
    apply Qle_shift_div_r; [exact Hd | Lqa.lra]. }
  assert (High : forall a d n, 0 < d -> 0 <= inject_Z n -> d <= a ->
            (n <= Exact.trunc (a / d * inject_Z n))%Z).
  { intros a d n Hd Hn Ha.
    assert (H1 : 1 <= a / d)
      by (apply Qle_shift_div_l; [exact Hd | Lqa.lra]).
    assert (H2 : inject_Z n <= a / d * inject_Z n).
    { rewrite <- (Qmult_1_l (inject_Z n)) at 1.
      apply Qmult_le_compat_r; assumption. }
    rewrite trunc_floor by Lqa.lra.
    rewrite <- (Qfloor_Z n) at 1. now apply Qfloor_resp_le. }
  repeat split; intros Hout.
  - pose proof (Low (lon - west) (east - west) (Z.of_nat w) Dx HW
                  ltac:(Lqa.lra)). lia.
  - pose proof (High (lon - west) (east - west) (Z.of_nat w) Dx HW
                  ltac:(Lqa.lra)). lia.
  - pose proof (Low (north - lat) (north - south) (Z.of_nat h) Dy HH
                  ltac:(Lqa.lra)). lia.
  - pose proof (High (north - lat) (north - south) (Z.of_nat h) Dy HH
                  ltac:(Lqa.lra)). lia.
Qed.

Lemma probe_clamps_outside_witness :
  exists v row col,
    get_slope_at_coord (numbered (F := Q)) (0, 0, 1, 1) 7 (- (3))
      = Ok (v, row, col) /\
    col = 0%Z /\ row = 0%Z.
Proof.
  destruct (@probe_clamps_outside numbered 10 10 0 0 1 1 7 (- (3))
              eq_refl eq_refl ltac:(lia) ltac:(lia) eq_refl eq_refl)
    as [v [row [col [E [Hwest [_ [Hnorth _]]]]]]].
  exists v, row, col. split; [exact E|].
  split; [apply Hwest | apply Hnorth]; discriminate.
Defined.

(** X21.  In exact arithmetic, bounds without width ([west = east]) or
    without height ([south = north]) make [get_slope_at_coord] fail with
    [ZeroDivisionError], whatever the point and the grid. *)
Theorem probe_degenerate_bounds
    (slopes : Np.ndarray Q) (h w : nat) (west south east north lat lon : Q) :
  Np.shape slopes = [h; w] ->
  west == east \/ south == north ->
  get_slope_at_coord slopes (west, south, east, north) lat lon
  = Raise ZeroDivisionError.
Proof.
  intros Hs Hdeg. unfold get_slope_at_coord, probe_index. rewrite Hs.
  cbn [div of_int sub mul to_int exact]. unfold Exact.div.
  destruct (Qeq_bool (east - west) 0) eqn:Ex; [reflexivity|].
  cbn [bind].
  destruct (Qeq_bool (north - south) 0) eqn:Ey; [reflexivity|].
  exfalso. apply Qeq_bool_neq in Ex. apply Qeq_bool_neq in Ey.
  destruct Hdeg as [E|E]; [apply Ex | apply Ey]; rewrite E; ring.
Qed.

Lemma probe_degenerate_bounds_witness :
  get_slope_at_coord (numbered (F := Q)) (0, 0, 0, 1) (1 # 2) (1 # 2)
  = Raise ZeroDivisionError.
Proof.
  apply (@probe_degenerate_bounds numbered 10 10); [reflexivity|].
  left. reflexivity.
Defined.

End DiagnoseMore.
